(** * TrackIt 4.3: a shallow embedding of the study tracker's logic

    The development follows [TrackIt 4.3.py].  Tk widgets, matplotlib and
    the debug log are left out; what is kept is every branch that decides
    a value the program stores, returns or writes.

    Conventions.
    - A Python exception is a constructor of [exn]; a computation that may
      raise has type [result A], with [inl e] for "raised e".
    - The text of a CSV file is not modelled: a file is the list of records
      that [csv.reader] yields from it, and a missing file is [None].
    - A [datetime] is a number of microseconds since 0001-01-01 00:00:00
      (naive, no time zone), a [timedelta] a number of microseconds; both
      are exact, as in Python.
    - Python's [float] is kept abstract in the class [PyFloat], so that the
      theorems hold for IEEE arithmetic as well as for the exact rationals
      used in the worked examples; the float operations of the hourly
      chart are in [PyDuration]. *)

From Stdlib Require Import ZArith QArith String Ascii List Lia.
From stdpp Require Import base gmap strings list sorting pretty.
From Equations Require Import Equations.

Set Warnings "-register-all".
Close Scope Q_scope.
Local Open Scope string_scope.

(** ** Exceptions *)

Inductive exn : Set :=
  | ValueError
  | KeyError
  | TypeError
  | OverflowError
  | FileNotFoundError.

Definition result (A : Type) : Type := exn + A.

#[global] Instance result_ret : MRet result := λ A x, inr x.
#[global] Instance result_bind : MBind result := λ A B f m,
  match m with
  | inl e => inl e
  | inr x => f x
  end.

Definition raise {A : Type} (e : exn) : result A := inl e.


(** [try: body  except (ValueError, KeyError): handler]: any other
    exception keeps propagating. *)
Definition except_Value_Key {A : Type} (body : result A) (handler : A) : result A :=
  match body with
  | inr x => inr x
  | inl ValueError | inl KeyError => inr handler
  | inl e => inl e
  end.

(** [try: body  except Exception: handler]. *)
Definition except_Exception {A : Type} (body : result A) (handler : A) : A :=
  match body with
  | inr x => x
  | inl _ => handler
  end.

(** ** The parts of the Python runtime the program relies on *)

Class PyFloat := {
  num : Type;
  zero : num;                          (* the literal 0 *)
  fadd : num → num → num;              (* x + y *)
  float_of_str : string → option num;  (* float(s), None for ValueError *)
  round2 : num → num;                  (* round(x, 2) *)
  str_num : num → string;              (* str(x) *)
  int_of_str : string → option Z;      (* int(s), None for ValueError *)
  int_of_float : num → result Z;       (* int(x): nan and inf raise *)
  divmod60 : num → result (Z * Z);     (* (int(x // 60), int(x % 60)) *)
  seconds_of_minutes : num → result Z; (* int(x * 60) *)
  minutes_of_seconds : Z → num;        (* n / 60 *)
  gt_tenth : num → bool                (* x > 0.1 *)
}.

Class PyTime `{PyFloat} := {
  (* datetime.strptime(s, "%Y-%m-%d %H:%M:%S"), None for ValueError *)
  strptime : string → option Z;
  (* timedelta(minutes=x), None when the constructor raises (nan, inf) *)
  timedelta_minutes : num → option Z;
  (* str(t.date()) *)
  str_date : Z → string;
  (* t.strftime("%H:%M:%S") *)
  strftime_HMS : Z → string
}.

Class PyText `{PyFloat} := {
  strip : string → string;   (* s.strip() *)
  isalnum : string → bool;   (* s.isalnum() *)
  le_zero : num → bool;      (* x <= 0 *)
  gt_1440 : num → bool       (* x > 1440 *)
}.

(** The float operations of the hourly chart, with the three facts about
    the order of floats that its buckets rely on: 0 is not negative, the
    sum of two floats that are not negative is not negative, and neither
    are the minutes of a duration that is not negative. *)
Class PyDuration `{PyFloat} := {
  (* d.total_seconds() / 60, for a timedelta of d microseconds *)
  total_minutes : Z → num;
  (* x / n, for an int n *)
  div_int : num → Z → num;
  (* 0 <= x *)
  nonneg : num → Prop;
  nonneg_zero : nonneg zero;
  nonneg_fadd (x y : num) : nonneg x → nonneg y → nonneg (fadd x y);
  nonneg_total_minutes (d : Z) : (0 ≤ d)%Z → nonneg (total_minutes d)
}.

(** ** csv.DictReader *)

Definition record : Type := list string.

(** A row as [DictReader] hands it out: the value [None] is Python's
    [None], the filler for a record shorter than the header.  (The entry
    under the key [None] that collects surplus fields is never read by the
    program and is left out.) *)
Abbreviation pyrow := (gmap string (option string)).

Definition make_row (fieldnames : list string) (row : record) : pyrow :=
  let d := foldl (λ d kv, <[kv.1 := Some kv.2]> d) ∅ (zip fieldnames row) in
  foldl (λ d key, <[key := None]> d) d (drop (length row) fieldnames).

Definition DictReader (f : list record) : list pyrow :=
  match f with
  | [] => []
  | fieldnames :: rows => make_row fieldnames <$> filter (λ r, r ≠ []) rows
  end.

(** [row[key]] *)
Definition getitem (row : pyrow) (key : string) : result (option string) :=
  match row !! key with
  | Some v => mret v
  | None => raise KeyError
  end.

(** [for row in reader: state = body(state, row)], stopping at the first
    exception that leaves the body. *)
Fixpoint for_rows {S : Type} (body : S → pyrow → result S) (s : S)
    (rows : list pyrow) : result S :=
  match rows with
  | [] => mret s
  | row :: rest => s' ← body s row; for_rows body s' rest
  end.

(** Nested [defaultdict(lambda: defaultdict(float))], keyed by the values
    found under 'date' and 'subject'. *)
Abbreviation table := (gmap (option string) (gmap (option string) num)).

(** ** class CSVLogger *)

Module CSVLogger.
Section WithRuntime.
Context `{PyTime}.

(** [__init__]: a missing file is created with the header row. *)
Definition init (file : option (list record)) : list record :=
  match file with
  | Some f => f
  | None => [["date"; "timestamp"; "subject"; "minutes"]]
  end.

(** [log]: the file is opened in append mode (and created when missing)
    and one record is written; the result is the file afterwards.  The
    text already in the file is taken to end at a record boundary, as
    every file written by this class does. *)
Definition log (now : Z) (subject : string) (minutes : num)
    (file : option (list record)) : list record :=
  default [] file ++
  [[str_date now; strftime_HMS now; subject; str_num (round2 minutes)]].

(** [float(v)] for a value read from a row *)
Definition float (v : option string) : result num :=
  match v with
  | None => raise TypeError
  | Some s =>
      match float_of_str s with
      | Some x => mret x
      | None => raise ValueError
      end
  end.

(** [data[date][subject] += minutes] *)
Definition add_minutes (data : table) (date subject : option string)
    (minutes : num) : table :=
  let day := default ∅ (data !! date) in
  <[date := <[subject := fadd (default zero (day !! subject)) minutes]> day]> data.

(** One turn of the loop of [get_today_minutes]. *)
Definition today_row (today : string) (total : num) (row : pyrow) : result num :=
  date ← getitem row "date";
  if decide (date = Some today) then
    except_Value_Key
      (v ← getitem row "minutes"; x ← float v; mret (fadd total x))
      total
  else mret total.

Definition get_today_minutes (now : Z) (file : option (list record)) : num :=
  except_Exception
    (let today := str_date now in
     match file with
     | Some f => for_rows (today_row today) zero (DictReader f)
     | None => mret zero
     end)
    zero.

(** One turn of the loop of [get_weekly_data]. *)
Definition weekly_row (data : table) (row : pyrow) : result table :=
  except_Value_Key
    (date ← getitem row "date";
     subject ← getitem row "subject";
     v ← getitem row "minutes";
     minutes ← float v;
     mret (add_minutes data date subject minutes))
    data.

Definition get_weekly_data (file : option (list record)) : table :=
  except_Exception
    (match file with
     | Some f => for_rows weekly_row ∅ (DictReader f)
     | None => mret ∅
     end)
    ∅.

(** One turn of the loop of [get_all_data]. *)
Definition all_row (data : table) (row : pyrow) : result table :=
  except_Value_Key
    (date ← getitem row "date";
     subject ← getitem row "subject";
     v ← getitem row "minutes";
     minutes ← float v;
     mret (add_minutes data date subject minutes))
    data.

Definition get_all_data (file : option (list record)) : table :=
  except_Exception
    (match file with
     | Some f => for_rows all_row ∅ (DictReader f)
     | None => mret ∅
     end)
    ∅.

End WithRuntime.
End CSVLogger.

(** ** plot_hourly_productivity_multiline *)

Definition HOUR : Z := 3600000000.

(** One microsecond past [datetime.max] (9999-12-31 23:59:59.999999). *)
Definition DATETIME_END : Z := 3652059 * (24 * HOUR).

(** [t.hour] *)
Definition hour (t : Z) : nat := Z.to_nat ((t / HOUR) mod 24).

(** [t.replace(minute=0, second=0, microsecond=0)] *)
Definition replace_minute0 (t : Z) : Z := HOUR * (t / HOUR).

(** [t + d] for a datetime [t] and a timedelta [d] *)
Definition datetime_add (t d : Z) : result Z :=
  if decide (0 ≤ t + d < DATETIME_END)%Z then mret (t + d)%Z
  else raise OverflowError.

(** [str(v)] inside an f-string *)
Definition pystr (v : option string) : string :=
  match v with
  | Some s => s
  | None => "None"
  end.

(** Whole hours the loop still has to visit; the measure of its
    termination. *)
Definition hours_left (end_time current : Z) : nat :=
  if decide (current < end_time)%Z
  then S (Z.to_nat (end_time / HOUR - current / HOUR))
  else 0.

Lemma HOUR_floor_next (t : Z) : ((HOUR * (t / HOUR) + HOUR) / HOUR = t / HOUR + 1)%Z.
Proof.
  replace (HOUR * (t / HOUR) + HOUR)%Z with ((t / HOUR + 1) * HOUR)%Z by lia.
  apply Z.div_mul. unfold HOUR. lia.
Qed.

Lemma HOUR_floor_bounds (t : Z) : (HOUR * (t / HOUR) ≤ t < HOUR * (t / HOUR) + HOUR)%Z.
Proof.
  pose proof (Z.mul_div_le t HOUR eq_refl).
  pose proof (Z.mul_succ_div_gt t HOUR eq_refl). lia.
Qed.

(** The order [sorted] puts on date keys: strings compare by code point.
    Two keys are only ever compared when both are strings. *)
Definition key_le (a b : option string) : Prop :=
  match a, b with
  | Some x, Some y => String.leb x y = true
  | _, _ => True
  end.

#[global] Instance key_le_dec : RelDecision key_le.
Proof. intros [x|] [y|]; simpl; apply _. Defined.

(** [sorted(keys)]: comparing [None] with anything raises [TypeError],
    which happens as soon as the list has a second element. *)
Definition sorted (keys : list (option string)) : result (list (option string)) :=
  if decide (None ∈ keys ∧ (2 ≤ length keys)%nat) then raise TypeError
  else mret (merge_sort key_le keys).

(** [l[-7:]] *)
Definition last_7 {A : Type} (l : list A) : list A := drop (length l - 7) l.

(** [hourly_by_day]: for each date the 24 hour buckets, floats of
    minutes. *)
Abbreviation chart := (gmap (option string) (list num)).

Definition sumZ (l : list Z) : Z := foldr Z.add 0%Z l.

Section Plot.
Context `{PyTime} `{!PyDuration}.

(** The [while current < end_time] loop.  [buckets] is the list
    [hourly_by_day[date]]; each slice is a [timedelta], its minutes are
    added to the bucket of the hour it starts in.  The loop is left
    through [OverflowError] when the next full hour is past
    [datetime.max], and what was credited until then stays. *)
Equations? credit_slices (end_time current : Z) (buckets : list num) : list num
  by wf (hours_left end_time current) lt :=
credit_slices end_time current buckets with decide (current < end_time)%Z := {
  | right _ => buckets
  | left _ with decide (replace_minute0 current + HOUR < DATETIME_END)%Z := {
    | right _ => buckets
    | left _ =>
        let next_hour := (replace_minute0 current + HOUR)%Z in
        let slice_end := Z.min end_time next_hour in
        let minutes_in_hour := total_minutes (slice_end - current) in
        credit_slices end_time slice_end
          (alter (λ v, fadd v minutes_in_hour) (hour current) buckets) } }.
Proof.
  subst slice_end next_hour.
  unfold hours_left, replace_minute0.
  pose proof (HOUR_floor_bounds current) as Hb.
  destruct (decide (current < end_time)%Z) as [_|]; [|lia].
  destruct (decide (_ < end_time)%Z) as [Hlt|]; [|lia].
  rewrite Z.min_r in * by lia.
  rewrite HOUR_floor_next.
  assert (current / HOUR + 1 ≤ end_time / HOUR)%Z.
  { rewrite <- HOUR_floor_next. apply Z.div_le_mono; [reflexivity|lia]. }
  lia.
Qed.

(** The statements of the [try] block up to the loop: start and end of
    the session. *)
Definition session_of_row (row : pyrow) : result (Z * Z) :=
  date ← getitem row "date";
  timestamp ← getitem row "timestamp";
  start_time ← from_option mret (raise ValueError)
                 (strptime (pystr date ++ " " ++ pystr timestamp));
  v ← getitem row "minutes";
  minutes ← CSVLogger.float v;
  duration ← from_option mret (raise ValueError) (timedelta_minutes minutes);
  end_time ← datetime_add start_time duration;
  mret (start_time, end_time).

(** One turn of the [for row in reader] loop.  ['date'] is read outside
    the [try]; inside it every exception is logged and the row skipped. *)
Definition hourly_row (last_7_dates : list (option string))
    (hourly_by_day : chart) (row : pyrow) : result chart :=
  date ← getitem row "date";
  if decide (date ∈ last_7_dates) then
    mret (except_Exception
            ('(start_time, end_time) ← session_of_row row;
             mret (alter (credit_slices end_time start_time) date hourly_by_day))
            hourly_by_day)
  else mret hourly_by_day.

(** [hourly_by_day[day][h]], for a day of the chart and an hour below
    24 *)
Definition bucket (hourly_by_day : chart) (day : option string) (h : nat) : num :=
  default zero (buckets ← hourly_by_day !! day; buckets !! h).

(** [hourly_totals], the dashed "7-Day Avg" line: [sum] adds the buckets
    of the hour to 0 in the order of the dates. *)
Definition hourly_totals (last_7_dates : list (option string))
    (hourly_by_day : chart) : list num :=
  (λ h,
     let total :=
       foldl fadd zero ((λ day, bucket hourly_by_day day h) <$> last_7_dates) in
     if decide (last_7_dates = []) then zero
     else div_int total (Z.of_nat (length last_7_dates)))
  <$> seq 0 24.

(** The function up to the point where drawing starts: the per-day
    buckets and the averages.  [inl e]: the outer handler shows the error
    dialog and the function returns [False]. *)
Definition plot_hourly_productivity_multiline (data : table)
    (file : option (list record)) : result (chart * list num) :=
  keys ← sorted (map_to_list data).*1;
  let last_7_dates := last_7 keys in
  let hourly_by_day : chart :=
    list_to_map ((λ date, (date, replicate 24 zero)) <$> last_7_dates) in
  f ← from_option mret (raise FileNotFoundError) file;
  hourly_by_day ← for_rows (hourly_row last_7_dates) hourly_by_day (DictReader f);
  mret (hourly_by_day, hourly_totals last_7_dates hourly_by_day).

End Plot.

(** ** plot_time_of_day_productivity *)

(** [f"{n:02d}"] *)
Definition fmt_02d (n : Z) : string :=
  if decide (0 ≤ n < 10)%Z then "0" ++ pretty n else pretty n.

(** [s.split(':')[0]] *)
Fixpoint before_colon (s : string) : string :=
  match s with
  | EmptyString => EmptyString
  | String c rest =>
      if decide (c = ":"%char) then EmptyString else String c (before_colon rest)
  end.

Definition str_le (s t : string) : Prop := String.leb s t = true.

#[global] Instance str_le_dec : RelDecision str_le.
Proof. intros s t. unfold str_le. apply _. Defined.

(** [time_slots] and [session_counts], two [defaultdict(int)] *)
Abbreviation slots := (gmap string num * gmap string nat)%type.

Section TimeOfDay.
Context `{PyFloat}.

(** The statements under [if row['date'] == date]: the slot of the hour
    the session started in, and its minutes.  [None]: one of them raised
    ([KeyError] for a missing column, [AttributeError] for a timestamp
    that is [None], [ValueError] or [TypeError] from [int] and [float]). *)
Definition slot_of_row (row : pyrow) : option (string * num) :=
  timestamp ← row !! "timestamp";
  time_str ← timestamp;
  hour ← int_of_str (before_colon time_str);
  let time_slot := fmt_02d hour ++ ":00-" ++ fmt_02d (hour + 1) ++ ":00" in
  v ← row !! "minutes";
  text ← v;
  minutes ← float_of_str text;
  Some (time_slot, minutes).

(** [time_slots[time_slot] += minutes; session_counts[time_slot] += 1] *)
Definition count_session (st : slots) (session : string * num) : slots :=
  (<[session.1 := fadd (default zero (st.1 !! session.1)) session.2]> st.1,
   <[session.1 := S (default 0 (st.2 !! session.1))]> st.2).

(** The [for row in reader] loop for one date.  Whatever is raised ends
    it, and the function goes on to the next date with what has been
    counted so far. *)
Fixpoint read_date (date : option string) (st : slots) (rows : list pyrow) : slots :=
  match rows with
  | [] => st
  | row :: rest =>
      match row !! "date" with
      | None => st
      | Some d =>
          if decide (d = date) then
            match slot_of_row row with
            | Some session => read_date date (count_session st session) rest
            | None => st
            end
          else read_date date st rest
      end
  end.

(** The function up to the point where drawing starts.  Of [data] only
    the keys are used; [keys] is [data.keys()], in the order of the dict.
    The result is [time_labels], [minutes_data] and [sessions_data];
    [None] stands for the ways the function shows an error dialog and
    returns [False]. *)
Definition plot_time_of_day_productivity (keys : list (option string))
    (daily_mode : bool) (file : option (list record)) :
    option (list string * list num * list nat) :=
  if decide (keys = []) then None
  else
    dates ← (if daily_mode then
               match sorted keys with
               | inr ascending => (λ date, [date]) <$> last ascending
               | inl _ => None
               end
             else Some keys);
    let st :=
      foldl (λ st date, from_option (λ f, read_date date st (DictReader f)) st file)
            (∅, ∅) dates in
    if decide (size st.1 = 0) then None
    else
      let time_labels := merge_sort str_le (map_to_list st.1).*1 in
      Some (time_labels,
            (λ slot, default zero (st.1 !! slot)) <$> time_labels,
            (λ slot, default 0 (st.2 !! slot)) <$> time_labels).

End TimeOfDay.

(** ** The charts drawn from [data]

    These charts depend on the order in which a dict hands out its keys,
    the order of first insertion.  [items] is a dict as [items()] lists
    it. *)

Abbreviation items A := (list (option string * A)).

(** [d.get(k)] *)
Fixpoint items_get {A : Type} (d : items A) (k : option string) : option A :=
  match d with
  | [] => None
  | (k', v) :: rest => if decide (k' = k) then Some v else items_get rest k
  end.

(** [d[k] = v]: a key that is there keeps its place, a new one goes to
    the end. *)
Fixpoint items_set {A : Type} (d : items A) (k : option string) (v : A) : items A :=
  match d with
  | [] => [(k, v)]
  | (k', v') :: rest =>
      if decide (k' = k) then (k, v) :: rest else (k', v') :: items_set rest k v
  end.

Section Charts.
Context `{PyFloat}.

(** [CSVLogger.get_weekly_data] once more, its result with the order of
    the keys. *)
Definition add_minutes_in_order (data : items (items num))
    (date subject : option string) (minutes : num) : items (items num) :=
  let day := default [] (items_get data date) in
  items_set data date
    (items_set day subject (fadd (default zero (items_get day subject)) minutes)).

Definition weekly_row_in_order (data : items (items num)) (row : pyrow) :
    result (items (items num)) :=
  except_Value_Key
    (date ← getitem row "date";
     subject ← getitem row "subject";
     v ← getitem row "minutes";
     minutes ← CSVLogger.float v;
     mret (add_minutes_in_order data date subject minutes))
    data.

Definition get_weekly_data_in_order (file : option (list record)) : items (items num) :=
  except_Exception
    (match file with
     | Some f => for_rows weekly_row_in_order [] (DictReader f)
     | None => mret []
     end)
    [].

(** [subject_totals], the loop of [plot_subject_distribution] and of
    [plot_subject_comparison] *)
Definition add_subject (subject_totals : items num)
    (entry : option string * num) : items num :=
  let '(subject, minutes) := entry in
  items_set subject_totals subject
    (fadd (default zero (items_get subject_totals subject)) minutes).

Definition subject_totals (data : items (items num)) : items num :=
  foldl (λ subject_totals day, foldl add_subject subject_totals day.2) [] data.

(** The two functions up to the point where drawing starts: the values
    and labels of the pie, the names and heights of the bars.  [None]:
    the error dialog "No subject data available!". *)
Definition plot_subject_distribution (data : items (items num)) :
    option (list num * list (option string)) :=
  let subject_totals := subject_totals data in
  if decide (subject_totals = []) then None
  else Some (subject_totals.*2, subject_totals.*1).

Definition plot_subject_comparison (data : items (items num)) :
    option (list (option string) * list num) :=
  let subject_totals := subject_totals data in
  if decide (subject_totals = []) then None
  else Some (subject_totals.*1, subject_totals.*2).

(** [sum(subjects.values())] *)
Definition day_total (subjects : items num) : num := foldl fadd zero subjects.*2.

(** [plot_weekly_trend] up to the point where drawing starts: the dates
    and the totals that [plt.plot] pairs by position.  [inr None]: the
    dialog "No data available!". *)
Definition plot_weekly_trend (data : items (items num)) :
    result (option (list (option string) * list num)) :=
  keys ← sorted data.*1;
  let dates := last_7 keys in
  if decide (dates = []) then mret None
  else
    let daily_totals :=
      (λ '(date, subjects), day_total subjects)
        <$> filter (λ '(date, subjects), date ∈ dates) data in
    mret (Some (dates, daily_totals)).

(** [plot_graph] up to the weekly average: the dates, the subjects that
    get a bar, the bars of each and the total of each day.  [inr None]:
    one of the two dialogs for missing data. *)
Definition plot_graph (data : items (items num)) :
    result (option (list (option string) * list (option string)
                    * items (list num) * list num)) :=
  if decide (data = []) then mret None
  else
    keys ← sorted data.*1;
    let dates := last_7 keys in
    match dates with
    | [] => mret None
    | first :: _ =>
        let subjects := (default [] (items_get data first)).*1 in
        let mins date subj :=
          default zero (items_get (default [] (items_get data date)) subj) in
        let bars := (λ subj, (subj, (λ date, mins date subj) <$> dates)) <$> subjects in
        let daily_totals :=
          (λ date, foldl (λ day_total subj, fadd day_total (mins date subj)) zero subjects)
            <$> dates in
        mret (Some (dates, subjects, bars, daily_totals))
    end.

End Charts.

(** ** class ConfigManager *)

Section Values.
Context `{PyFloat}.

(** What [json.load] returns.  A dict is kept as the members of the JSON
    object in file order; [json.load] assigns them one after the other, so
    a repeated key ends up with its last value. *)
Inductive pyval : Type :=
  | PNone
  | PBool (b : bool)
  | PInt (n : Z)
  | PFloat (x : num)
  | PStr (s : string)
  | PList (items : list pyval)
  | PDict (members : list (string * pyval)).

(** [d.get(key, default)] *)
Fixpoint dict_get (members : list (string * pyval)) (key : string)
    (default : pyval) : pyval :=
  match members with
  | [] => default
  | (k, v) :: rest => dict_get rest key (if decide (k = key) then v else default)
  end.

End Values.

(** The config file: [None] when it does not exist, otherwise what
    [json.load] makes of it, a value or an exception. *)
Abbreviation json_file := (option (result pyval)).

Module ConfigManager.
Section WithRuntime.
Context `{PyFloat}.

Definition DEFAULT_SUBJECTS : pyval :=
  PList [PStr "Math"; PStr "Physics"; PStr "Chemistry"].

Definition DEFAULT_DAILY_GOAL : pyval := PInt 690.

Record config : Type := Config {
  subjects : pyval;
  daily_goal : pyval;
  theme : pyval
}.

Definition defaults : config :=
  {| subjects := DEFAULT_SUBJECTS;
     daily_goal := DEFAULT_DAILY_GOAL;
     theme := PStr "system" |}.

Definition load_config (self : config) (file : json_file) : config :=
  except_Exception
    (match file with
     | Some content =>
         loaded ← content;
         match loaded with
         | PDict members =>
             mret {| subjects := dict_get members "subjects" DEFAULT_SUBJECTS;
                     daily_goal := dict_get members "daily_goal" DEFAULT_DAILY_GOAL;
                     theme := dict_get members "theme" (PStr "system") |}
         | _ => raise ValueError
         end
     | None => mret self
     end)
    defaults.

(** [__init__] *)
Definition init (file : json_file) : config := load_config defaults file.

(** [save_config]: the fields given are replaced, then all three are
    dumped; the result is the object and the file afterwards. *)
Definition save_config (self : config)
    (new_subjects new_daily_goal new_theme : option pyval) : config * json_file :=
  let self :=
    {| subjects := default (subjects self) new_subjects;
       daily_goal := default (daily_goal self) new_daily_goal;
       theme := default (theme self) new_theme |} in
  (self,
   Some (inr (PDict [("subjects", subjects self);
                     ("daily_goal", daily_goal self);
                     ("theme", theme self)]))).

End WithRuntime.
End ConfigManager.

(** ** class StudyTrackerApp *)

Module StudyTrackerApp.
Section WithRuntime.
Context `{PyTime}.

Inductive dialog : Type :=
  | showinfo (title message : string)
  | showerror (title message : string).

(** The attributes the handlers read and write, the two files, the
    callbacks armed with [root.after] that have not run yet, and the
    message boxes shown so far (latest first).  The text of the entry
    fields is an argument of each handler. *)
Record app : Type := App {
  config : ConfigManager.config;
  daily_goal : pyval;
  timer_running : bool;
  remaining_time : Z;
  logged_time : Z;
  pending : nat;
  log_file : option (list record);
  config_file : json_file;
  dialogs : list dialog
}.

Definition with_daily_goal (v : pyval) (s : app) : app :=
  App (config s) v (timer_running s) (remaining_time s) (logged_time s)
      (pending s) (log_file s) (config_file s) (dialogs s).

Definition with_config (c : ConfigManager.config * json_file)
    (s : app) : app :=
  App c.1 (daily_goal s) (timer_running s) (remaining_time s) (logged_time s)
      (pending s) (log_file s) c.2 (dialogs s).

Definition with_timer_running (b : bool) (s : app) : app :=
  App (config s) (daily_goal s) b (remaining_time s) (logged_time s)
      (pending s) (log_file s) (config_file s) (dialogs s).

Definition with_remaining_time (t : Z) (s : app) : app :=
  App (config s) (daily_goal s) (timer_running s) t (logged_time s)
      (pending s) (log_file s) (config_file s) (dialogs s).

Definition with_logged_time (t : Z) (s : app) : app :=
  App (config s) (daily_goal s) (timer_running s) (remaining_time s) t
      (pending s) (log_file s) (config_file s) (dialogs s).

Definition with_pending (n : nat) (s : app) : app :=
  App (config s) (daily_goal s) (timer_running s) (remaining_time s)
      (logged_time s) n (log_file s) (config_file s) (dialogs s).

Definition with_log_file (f : list record) (s : app) : app :=
  App (config s) (daily_goal s) (timer_running s) (remaining_time s)
      (logged_time s) (pending s) (Some f) (config_file s) (dialogs s).

Definition show (d : dialog) (s : app) : app :=
  App (config s) (daily_goal s) (timer_running s) (remaining_time s)
      (logged_time s) (pending s) (log_file s) (config_file s) (d :: dialogs s).

(** A handler ends in a state and, possibly, an exception that nothing
    caught (Tk reports it and the event loop goes on). *)
Definition outcome : Type := app * option exn.

Definition done (s : app) : outcome := (s, None).
Definition uncaught (e : exn) (s : app) : outcome := (s, Some e).

(** [update_goal_progress]: only what can raise is kept, the conversion
    of today's total to hours and minutes for the label. *)
Definition update_goal_progress (now : Z) (s : app) : result unit :=
  let total := CSVLogger.get_today_minutes now (log_file s) in
  _ ← divmod60 total;
  mret ().

Definition invalid_goal : dialog :=
  showerror "Invalid Input" "Please enter a valid number for daily goal.".

Definition set_goal (now : Z) (goal_var : string) (s : app) : outcome :=
  match int_of_str goal_var with
  | None => done (show invalid_goal s)
  | Some new_goal =>
      if decide (new_goal ≤ 0)%Z then done (show invalid_goal s)
      else
        let new_goal := if decide (new_goal > 1440)%Z then 1440%Z else new_goal in
        let s := with_daily_goal (PInt new_goal) s in
        match update_goal_progress now s with
        | inl ValueError => done (show invalid_goal s)
        | inl e => uncaught e s
        | inr _ =>
            let s := show (showinfo "Goal Updated"
                             ("Daily goal set to " ++ pretty new_goal ++ " minutes.")) s in
            let c := ConfigManager.Config (ConfigManager.subjects (config s))
                       (daily_goal s) (ConfigManager.theme (config s)) in
            done (with_config
                    (ConfigManager.save_config c
                       (Some (ConfigManager.subjects c)) (Some (daily_goal s)) None)
                    s)
        end
  end.

Definition invalid_duration : dialog :=
  showerror "Invalid Input" "Enter a valid duration and select a subject.".

(** The [try] block of [update_timer] that logs a finished session. *)
Definition log_complete (now : Z) (duration_var subject_var : string)
    (s : app) : app * result unit :=
  match float_of_str duration_var with
  | None => (s, raise ValueError)
  | Some total_duration =>
      if decide (subject_var = "") then (s, mret ())
      else
        let s := with_log_file
                   (CSVLogger.log now subject_var total_duration (log_file s)) s in
        match update_goal_progress now s with
        | inl e => (s, raise e)
        | inr _ =>
            match int_of_float total_duration with
            | inl e => (s, raise e)
            | inr n =>
                (show (showinfo "Session Complete" (pretty n ++ " minutes logged.")) s,
                 mret ())
            end
        end
  end.

Definition update_timer (now : Z) (duration_var subject_var : string)
    (s : app) : outcome :=
  if decide (remaining_time s ≤ 0)%Z then
    let '(s, r) :=
      if timer_running s then log_complete now duration_var subject_var s
      else (s, mret ()) in
    match r with
    | inr _ | inl ValueError => done (with_timer_running false s)
    | inl e => uncaught e s
    end
  else
    let s := with_remaining_time (remaining_time s - 1) s in
    if timer_running s then done (with_pending (S (pending s)) s)
    else done s.

(** A callback armed with [root.after] comes due. *)
Definition tick (now : Z) (duration_var subject_var : string)
    (s : app) : option outcome :=
  match pending s with
  | O => None
  | S n => Some (update_timer now duration_var subject_var (with_pending n s))
  end.

Definition toggle_timer (now : Z) (duration_var subject_var : string)
    (s : app) : outcome :=
  if negb (timer_running s) then
    let start (s : app) : outcome :=
      update_timer now duration_var subject_var (with_timer_running true s) in
    if decide (remaining_time s ≤ 0)%Z then
      match float_of_str duration_var with
      | None => done (show invalid_duration s)
      | Some mins =>
          if decide (subject_var = "") then done (show invalid_duration s)
          else
            match seconds_of_minutes mins with
            | inl ValueError => done (show invalid_duration s)
            | inl e => uncaught e s
            | inr t => start (with_logged_time 0 (with_remaining_time t s))
            end
      end
    else start s
  else
    match from_option seconds_of_minutes (raise ValueError) (float_of_str duration_var) with
    | inl e => uncaught e s
    | inr total_seconds_set =>
        let elapsed_seconds := (total_seconds_set - remaining_time s)%Z in
        let new_session_seconds := (elapsed_seconds - logged_time s)%Z in
        let session_minutes := minutes_of_seconds new_session_seconds in
        if gt_tenth session_minutes then
          let s := with_log_file
                     (CSVLogger.log now subject_var session_minutes (log_file s)) s in
          let s := with_logged_time (logged_time s + new_session_seconds) s in
          match update_goal_progress now s with
          | inl e => uncaught e s
          | inr _ =>
              match int_of_float session_minutes with
              | inl e => uncaught e s
              | inr n =>
                  done (with_timer_running false
                          (show (showinfo "Session Paused"
                                   (pretty n ++ " minutes logged.")) s))
              end
          end
        else done (with_timer_running false s)
    end.

(** [reset_timer] (the entry fields it clears are not part of the state) *)
Definition reset_timer (s : app) : app :=
  with_logged_time 0 (with_remaining_time 0 (with_timer_running false s)).

(** [__init__], as far as the state above goes. *)
Definition init (log_file : option (list record))
    (config_file : json_file) : app :=
  let config := ConfigManager.init config_file in
  {| config := config;
     daily_goal := ConfigManager.daily_goal config;
     timer_running := false;
     remaining_time := 0;
     logged_time := 0;
     pending := 0;
     log_file := Some (CSVLogger.init log_file);
     config_file := config_file;
     dialogs := [] |}.

(** *** The other handlers *)

Context `{!PyText}.

(** An argument of [save_config] as its [is not None] test sees it. *)
Definition not_None (v : pyval) : option pyval :=
  match v with
  | PNone => None
  | _ => Some v
  end.

(** [v == s] for a string literal [s] *)
Definition is_str (v : pyval) (s : string) : bool :=
  match v with
  | PStr t => bool_decide (t = s)
  | _ => false
  end.

Definition toggle_theme (s : app) : app :=
  let current_mode := ConfigManager.theme (config s) in
  let current_mode :=
    if negb (is_str current_mode "light" || is_str current_mode "dark")
    then PStr "dark" else current_mode in
  let new_mode := if is_str current_mode "dark" then "light" else "dark" in
  with_config
    (ConfigManager.save_config (config s)
       (not_None (ConfigManager.subjects (config s)))
       (not_None (ConfigManager.daily_goal (config s)))
       (Some (PStr new_mode)))
    s.

(** [text.split("\n")] *)
Fixpoint split_lines (text : string) : list string :=
  match text with
  | EmptyString => [EmptyString]
  | String c rest =>
      if decide (c = "010"%char) then EmptyString :: split_lines rest
      else match split_lines rest with
           | line :: lines => String c line :: lines
           | [] => [String c EmptyString]
           end
  end.

(** [save_subjects]; [text] is what the text box holds. *)
Definition save_subjects (text : string) (s : app) : app :=
  let new_subjects := filter (λ s_clean, s_clean ≠ "") (strip <$> split_lines text) in
  if decide (new_subjects = []) then
    show (showerror "Error" "Please enter at least one subject") s
  else
    show (showinfo "Success" "Subjects updated!")
      (with_config
         (ConfigManager.save_config (config s)
            (Some (PList (PStr <$> new_subjects))) None None)
         s).



End WithRuntime.
End StudyTrackerApp.

(** ** A runtime for the worked examples

    Exact rationals stand for floats, decimal literals are read without
    exponent, and the two time formats are the zero-padded ones that
    [CSVLogger.log] writes.  On such input the functions below return what
    CPython returns, up to the binary rounding of floats. *)

Module Exact.

Definition digit_of (c : ascii) : option Z :=
  let n := Z.of_N (N_of_ascii c) in
  if decide (48 ≤ n ≤ 57)%Z then Some (n - 48)%Z else None.

Fixpoint digits_from (acc : Z) (s : string) : option Z :=
  match s with
  | EmptyString => Some acc
  | String c s' => d ← digit_of c; digits_from (10 * acc + d)%Z s'
  end.

Definition digits (s : string) : option Z :=
  if decide (s = "") then None else digits_from 0 s.

Fixpoint split_at (sep : ascii) (s : string) : string * option string :=
  match s with
  | EmptyString => ("", None)
  | String c s' =>
      if decide (c = sep) then ("", Some s')
      else let '(a, b) := split_at sep s' in (String c a, b)
  end.

Definition unsigned_of_str (s : string) : option Q :=
  match split_at "."%char s with
  | (i, None) => z ← digits i; Some (inject_Z z)
  | (i, Some f) =>
      if decide (i = "" ∧ f = "") then None
      else
        zi ← digits_from 0 i;
        zf ← digits_from 0 f;
        let scale := (10 ^ Z.of_nat (String.length f))%Z in
        Some (Qred (Qmake (zi * scale + zf) (Z.to_pos scale)))
  end.

Definition Q_of_str (s : string) : option Q :=
  match s with
  | String "-"%char s' => Qopp <$> unsigned_of_str s'
  | String "+"%char s' => unsigned_of_str s'
  | _ => unsigned_of_str s
  end.

Definition round_half_even (x : Q) : Z :=
  let n := Qnum x in
  let d := Zpos (Qden x) in
  let q := (n / d)%Z in
  let r := (n mod d)%Z in
  if decide (2 * r < d)%Z then q
  else if decide (d < 2 * r)%Z then (q + 1)%Z
  else if Z.even q then q else (q + 1)%Z.

Definition Q_round2 (x : Q) : Q :=
  Qred (Qmake (round_half_even (x * 100)) 100).

Definition pad2 (n : Z) : string :=
  if decide (n < 10)%Z then "0" ++ pretty n else pretty n.

(** [str] of a float with at most two decimals. *)
Definition Q_str (x : Q) : string :=
  let c := round_half_even (Qmake (Z.abs (Qnum x)) (Qden x) * 100) in
  let frac := (c mod 100)%Z in
  (if decide (Qnum x < 0)%Z then "-" else "") ++
  pretty (c / 100)%Z ++ "." ++
  (if decide (frac mod 10 = 0)%Z then pretty (frac / 10)%Z else pad2 frac).

#[export] Instance exact_float : PyFloat := {|
  num := Q;
  zero := 0%Q;
  fadd x y := Qred (x + y);
  float_of_str := Q_of_str;
  round2 := Q_round2;
  str_num := Q_str;
  int_of_str s :=
    match s with
    | String "-"%char s' => Z.opp <$> digits s'
    | String "+"%char s' => digits s'
    | _ => digits s
    end;
  int_of_float x := inr (Z.quot (Qnum x) (Zpos (Qden x)));
  divmod60 x :=
    let h := (Qnum x / (60 * Zpos (Qden x)))%Z in
    inr (h, Z.quot (Qnum (x - inject_Z (60 * h))) (Zpos (Qden (x - inject_Z (60 * h)))));
  seconds_of_minutes x := inr (Z.quot (Qnum (x * 60)) (Zpos (Qden (x * 60))));
  minutes_of_seconds n := Qred (Qmake n 60);
  gt_tenth x := bool_decide (Zpos (Qden x) < 10 * Qnum x)%Z
|}.

(** ASCII white space, as [str.strip] and [str.isspace] see it. *)
Definition is_space (c : ascii) : bool :=
  let n := N_of_ascii c in
  ((9 <=? n) && (n <=? 13) || (28 <=? n) && (n <=? 32))%N.

Fixpoint lstrip (s : string) : string :=
  match s with
  | EmptyString => EmptyString
  | String c rest => if is_space c then lstrip rest else s
  end.

Fixpoint rstrip (s : string) : string :=
  match s with
  | EmptyString => EmptyString
  | String c rest =>
      match rstrip rest with
      | EmptyString => if is_space c then EmptyString else String c EmptyString
      | kept => String c kept
      end
  end.

Definition is_alnum_char (c : ascii) : bool :=
  let n := N_of_ascii c in
  ((48 <=? n) && (n <=? 57) || (65 <=? n) && (n <=? 90)
   || (97 <=? n) && (n <=? 122))%N.

#[export] Instance exact_text : PyText := {|
  strip s := rstrip (lstrip s);
  isalnum s :=
    negb (bool_decide (s = "")) && forallb is_alnum_char (list_ascii_of_string s);
  le_zero x := bool_decide (Qnum x ≤ 0)%Z;
  gt_1440 x := bool_decide (1440 * Zpos (Qden x) < Qnum x)%Z
|}.

Lemma Q_nonneg_fadd (x y : Q) : Qle 0 x → Qle 0 y → Qle 0 (Qred (x + y)).
Proof.
  intros Hx Hy. rewrite Qred_correct.
  unfold Qle in *. cbn in *. nia.
Qed.

Lemma Q_nonneg_total_minutes (d : Z) : (0 ≤ d)%Z → Qle 0 (Qred (d # 60000000)).
Proof. intros Hd. rewrite Qred_correct. unfold Qle. cbn. lia. Qed.

#[export] Instance exact_duration : PyDuration := {|
  total_minutes d := Qred (d # 60000000);
  div_int x n := Qred (x / inject_Z n);
  nonneg x := Qle 0 x;
  nonneg_zero := Qle_refl 0;
  nonneg_fadd := Q_nonneg_fadd;
  nonneg_total_minutes := Q_nonneg_total_minutes
|}.

(** The calendar, after [_ymd2ord] and [_ord2ymd] of CPython's datetime. *)

Definition is_leap (y : Z) : bool :=
  ((y mod 4 =? 0) && (negb (y mod 100 =? 0) || (y mod 400 =? 0)))%Z.

Definition days_in_month (y m : Z) : Z :=
  if decide (m = 2)%Z then (if is_leap y then 29 else 28)%Z
  else if decide (m = 4 ∨ m = 6 ∨ m = 9 ∨ m = 11)%Z then 30%Z
  else 31%Z.

Definition days_before_month (y m : Z) : Z :=
  sumZ (days_in_month y <$> seqZ 1 (m - 1)).

Definition days_before_year (y : Z) : Z :=
  let p := (y - 1)%Z in (p * 365 + p / 4 - p / 100 + p / 400)%Z.

Definition ymd2ord (y m d : Z) : Z :=
  (days_before_year y + days_before_month y m + d)%Z.

Definition ord2ymd (ordinal : Z) : Z * Z * Z :=
  let n := (ordinal - 1)%Z in
  let n400 := (n / 146097)%Z in
  let n := (n mod 146097)%Z in
  let n100 := (n / 36524)%Z in
  let n := (n mod 36524)%Z in
  let n4 := (n / 1461)%Z in
  let n := (n mod 1461)%Z in
  let n1 := (n / 365)%Z in
  let n := (n mod 365)%Z in
  let year := (n400 * 400 + 1 + n100 * 100 + n4 * 4 + n1)%Z in
  if decide (n1 = 4 ∨ n100 = 4)%Z then ((year - 1)%Z, 12%Z, 31%Z)
  else
    let month := ((n + 50) / 32)%Z in
    let preceding := days_before_month year month in
    if decide (n < preceding)%Z
    then (year, (month - 1)%Z,
          (n - (preceding - days_in_month year (month - 1)) + 1)%Z)
    else (year, month, (n - preceding + 1)%Z).

Definition field (s : string) (start len : nat) : option Z :=
  digits (String.substring start len s).

Definition separator (s : string) (i : nat) (c : ascii) : bool :=
  bool_decide (String.get i s = Some c).

Definition Z_strptime (s : string) : option Z :=
  if bool_decide (String.length s = 19%nat)
     && separator s 4 "-" && separator s 7 "-" && separator s 10 " "
     && separator s 13 ":" && separator s 16 ":"
  then
    y ← field s 0 4; m ← field s 5 2; d ← field s 8 2;
    hh ← field s 11 2; mm ← field s 14 2; ss ← field s 17 2;
    if decide (1 ≤ y ∧ 1 ≤ m ≤ 12 ∧ 1 ≤ d ≤ days_in_month y m
               ∧ hh < 24 ∧ mm < 60 ∧ ss < 60)%Z
    then Some (((((ymd2ord y m d - 1) * 24 + hh) * 60 + mm) * 60 + ss) * 1000000)%Z
    else None
  else None.

Definition pad4 (n : Z) : string :=
  if decide (n < 10)%Z then "000" ++ pretty n
  else if decide (n < 100)%Z then "00" ++ pretty n
  else if decide (n < 1000)%Z then "0" ++ pretty n
  else pretty n.

Definition Z_str_date (t : Z) : string :=
  let '(y, m, d) := ord2ymd (t / (24 * HOUR) + 1) in
  pad4 y ++ "-" ++ pad2 m ++ "-" ++ pad2 d.

Definition Z_strftime_HMS (t : Z) : string :=
  let s := ((t mod (24 * HOUR)) / 1000000)%Z in
  pad2 (s / 3600) ++ ":" ++ pad2 (s / 60 mod 60) ++ ":" ++ pad2 (s mod 60).

#[export] Instance exact_time : PyTime := {|
  strptime := Z_strptime;
  timedelta_minutes x := Some (round_half_even (x * 60000000));
  str_date := Z_str_date;
  strftime_HMS := Z_strftime_HMS
|}.

End Exact.


(** ** Sample inputs *)

Module Samples.
Import Exact.

(** 2024-03-05 10:30:00 *)
Definition morning : Z := 63845231400000000.

Definition header : record := ["date"; "timestamp"; "subject"; "minutes"].

(** Two sessions today and a record of the day before that stops after
    its date. *)
Definition two_today : list record :=
  [header;
   ["2024-03-04"];
   ["2024-03-05"; "08:00:00"; "Math"; "30"];
   ["2024-03-05"; "09:15:00"; "Physics"; "12.5"]].

(** A record that stops after its date, on a day that has a session. *)
Definition short_record : list record :=
  [header;
   ["2024-03-05"; "08:00:00"; "Math"; "30"];
   ["2024-03-05"]].

(** Eight days with one session each. *)
Definition eight_days : list record :=
  header ::
  ((λ day, ["2024-01-0" ++ day; "18:00:00"; "Math"; "10"])
     <$> ["1"; "2"; "3"; "4"; "5"; "6"; "7"; "8"]).

(** The log after Start is pressed at 10:30 with "-5" in the duration
    field: a session of -5 minutes. *)
Definition negative_session : list record :=
  [header; ["2024-03-05"; "10:30:00"; "Math"; "-5.0"]].

(** A session from 23:30 that runs for two hours and half a minute, and
    one on the next day. *)
Definition past_midnight : list record :=
  [header;
   ["2024-03-05"; "10:00:00"; "Math"; "30"];
   ["2024-03-05"; "23:30:00"; "Math"; "120.5"];
   ["2024-03-06"; "07:00:00"; "Physics"; "45"]].

(** The application as it starts with no files. *)
Definition fresh : StudyTrackerApp.app := StudyTrackerApp.init None None.

(** Start a one-minute session, let one tick pass, press pause. *)
Definition paused : StudyTrackerApp.app :=
  let s := (StudyTrackerApp.toggle_timer morning "1" "Math" fresh).1 in
  let s := from_option fst s (StudyTrackerApp.tick morning "1" "Math" s) in
  (StudyTrackerApp.toggle_timer morning "1" "Math" s).1.

(** A one-minute session just started: 59 seconds left, one callback
    armed. *)
Definition running : StudyTrackerApp.app :=
  (StudyTrackerApp.toggle_timer morning "1" "Math" fresh).1.

(** The clock and the entry fields at a tick of that session. *)
Definition one_second : Z * string * string := (morning, "1", "Math").

End Samples.

(** * The vocabulary of the claims *)

(** The rows a read iterates over. *)
Definition rows_of (file : option (list record)) : list pyrow :=
  from_option DictReader [] file.







Section Sessions.
Context `{PyTime} `{!PyDuration}.


(** Every date of the chart has its 24 buckets, none of them negative. *)
Definition full_days (hourly_by_day : chart) : Prop :=
  ∀ date buckets, hourly_by_day !! date = Some buckets →
    length buckets = 24 ∧ Forall nonneg buckets.



End Sessions.

Section Ticks.
Context `{PyTime}.

(** A run of ticks, each with the clock and the entry fields of its
    moment; [None] when a tick is asked for and no callback is armed. *)
Fixpoint ticks (inputs : list (Z * string * string)) (s : StudyTrackerApp.app) :
    option StudyTrackerApp.app :=
  match inputs with
  | [] => Some s
  | (now, duration_var, subject_var) :: rest =>
      match StudyTrackerApp.tick now duration_var subject_var s with
      | Some (s', _) => ticks rest s'
      | None => None
      end
  end.

End Ticks.

(** ["\n".join(lines)], what the settings page puts into the text box *)
Fixpoint join_lines (lines : list string) : string :=
  match lines with
  | [] => ""
  | [line] => line
  | line :: rest => line ++ String "010"%char (join_lines rest)
  end.

(** The text holds no line feed. *)
Definition one_line (s : string) : Prop := "010"%char ∉ list_ascii_of_string s.

(** The mapping that a dict in key order stands for. *)
Definition to_table {A : Type} (data : items (items A)) :
    gmap (option string) (gmap (option string) A) :=
  list_to_map ((λ kv, (kv.1, list_to_map kv.2)) <$> data).

(** The keys of a list, each once, in the order in which they first
    appear. *)
Definition first_appearances (keys : list (option string)) : list (option string) :=
  foldl (λ seen key, if decide (key ∈ seen) then seen else seen ++ [key])%list [] keys.

(** The subjects of [data], date after date, as its inner dicts list
    them. *)
Definition subjects_of {A : Type} (data : items (items A)) : list (option string) :=
  day ← data; day.2.*1.

(** The minutes [data] holds for a subject, over all its dates, in the
    order of the dates. *)
Definition minutes_of_subject {A : Type} (subject : option string)
    (data : items (items A)) : list A :=
  '(date, subjects) ← data;
  '(s, minutes) ← subjects;
  if decide (s = subject) then [minutes] else [].

Section Vocabulary.
Context `{PyFloat}.

(** The minutes of a row whose 'minutes' field is there and is accepted
    by [float]. *)
Definition minutes_of_row (row : pyrow) : option num :=
  v ← row !! "minutes"; s ← v; float_of_str s.

(** A well-formed row of the aggregations: the three columns they read
    are there and the minutes parse. *)
Definition entry_of_row (row : pyrow) : option (option string * option string * num) :=
  date ← row !! "date";
  subject ← row !! "subject";
  minutes ← minutes_of_row row;
  Some (date, subject, minutes).

(** The minutes of the well-formed rows dated [today], in file order. *)
Definition today_minutes (today : string) (rows : list pyrow) : list num :=
  omap (λ row, if decide (row !! "date" = Some (Some today))
               then minutes_of_row row else None) rows.

(** The minutes of the well-formed rows with a given date and subject, in
    file order. *)
Definition minutes_for (date subject : option string) (rows : list pyrow) : list num :=
  omap (λ row, '(d, s, x) ← entry_of_row row;
               if decide (d = date ∧ s = subject) then Some x else None) rows.

(** [data[date][subject]], when both keys are there. *)
Definition entry (data : table) (date subject : option string) : option num :=
  day ← data !! date; day !! subject.

(** A row for which [float(row['minutes'])] is reached with [None]: the
    record was shorter than the header and no column is missing from the
    header itself. *)
Definition short_of_minutes (row : pyrow) : Prop :=
  is_Some (row !! "date") ∧ is_Some (row !! "subject") ∧ row !! "minutes" = Some None.

(** A sum as the loops form it: from 0, adding one value after the other. *)
Definition total_of (l : list num) : num := foldl fadd zero l.

(** The dates that occur in a file, each once, and the seven largest. *)
Definition file_dates (f : list record) : list (option string) :=
  remove_dups (omap (λ row : pyrow, row !! "date") (DictReader f)).

Definition seven_largest_dates (f : list record) : list (option string) :=
  last_7 (merge_sort key_le (file_dates f)).

(** The value a JSON object stores under a key: the last member with
    that key, if there is one. *)
Definition stored (members : list (string * pyval)) (key : string) : option pyval :=
  last (omap (λ kv, if decide (kv.1 = key) then Some kv.2 else None) members).

End Vocabulary.

(** * Properties *)

(** ** Missing files, the append-only log, the config file *)

Section FileProperties.
Context `{PyTime}.

(** The two loops run the same body. *)
Lemma for_rows_all_row (rows : list pyrow) (data : table) :
  for_rows CSVLogger.all_row data rows = for_rows CSVLogger.weekly_row data rows.
Proof.
  assert (Hrow : ∀ data row, CSVLogger.all_row data row = CSVLogger.weekly_row data row)
    by reflexivity.
  revert data. induction rows as [|row rows IH]; intros data; simpl; [reflexivity|].
  rewrite Hrow. destruct (CSVLogger.weekly_row data row); simpl; auto.
Qed.


(** C5. With the backing file missing every read returns its default and
    nothing is raised: 0 for today's minutes, the empty mapping for the two
    aggregations, and [load_config] leaves the object as it found it, which
    after [__init__] is DEFAULT_SUBJECTS, 690 and "system". *)
Theorem missing_file_defaults (now : Z) (self : ConfigManager.config) :
  CSVLogger.get_today_minutes now None = zero
  ∧ CSVLogger.get_weekly_data None = ∅
  ∧ CSVLogger.get_all_data None = ∅
  ∧ ConfigManager.load_config self None = self
  ∧ ConfigManager.init None =
      ConfigManager.Config
        (PList [PStr "Math"; PStr "Physics"; PStr "Chemistry"])
        (PInt 690) (PStr "system").
Proof. repeat split; reflexivity. Qed.

(** C6. [log] adds exactly one record at the end of the file, the record
    [date, HH:MM:SS, subject, round(minutes, 2)], and every record that
    was in the file, the header included, stays where and what it was. *)
Theorem log_appends_one_row (now : Z) (subject : string) (minutes : num)
    (file : option (list record)) :
  let old := default [] file in
  let new := CSVLogger.log now subject minutes file in
  length new = S (length old)
  ∧ (∀ i r, old !! i = Some r → new !! i = Some r)
  ∧ new !! length old =
      Some [str_date now; strftime_HMS now; subject; str_num (round2 minutes)]
  ∧ take (length old) new = old.
Proof.
  simpl. unfold CSVLogger.log. repeat split.
  - rewrite length_app. simpl. lia.
  - intros i r Hi. by apply lookup_app_l_Some.
  - by rewrite list_lookup_middle.
  - by rewrite take_app_length.
Qed.

Lemma dict_get_stored members key dflt :
  dict_get members key dflt = default dflt (stored members key).
Proof.
  unfold stored. revert dflt.
  induction members as [|[k v] members IH]; intros dflt; [reflexivity|].
  cbn [dict_get omap list_omap]. rewrite IH. cbn [fst snd].
  destruct (decide (k = key)); [|reflexivity].
  set (l := omap _ members). destruct l as [|x l]; [reflexivity|].
  assert (is_Some (last (x :: l))) as [y Hy] by by rewrite last_is_Some.
  change (last (v :: x :: l)) with (last (x :: l)). by rewrite Hy.
Qed.

(** C7. Each of the three keys is optional: from a JSON object
    [load_config] takes the stored value of every key that is present and
    the default of every key that is absent; any other JSON value resets
    all three fields to the defaults. *)
Theorem load_config_optional_keys (self : ConfigManager.config) (loaded : pyval) :
  ConfigManager.load_config self (Some (inr loaded)) =
  match loaded with
  | PDict members =>
      ConfigManager.Config
        (default ConfigManager.DEFAULT_SUBJECTS (stored members "subjects"))
        (default (PInt 690) (stored members "daily_goal"))
        (default (PStr "system") (stored members "theme"))
  | _ => ConfigManager.defaults
  end.
Proof.
  destruct loaded; try reflexivity.
  unfold ConfigManager.load_config. simpl.
  by rewrite !dict_get_stored.
Qed.

(** A config file that [json.load] rejects resets the three fields too. *)
Lemma load_config_unreadable (self : ConfigManager.config) (e : exn) :
  ConfigManager.load_config self (Some (inl e)) = ConfigManager.defaults.
Proof. reflexivity. Qed.

End FileProperties.

(** ** The aggregations of CSVLogger *)

Section Aggregation.
Context `{PyTime}.

(** Every row of a file has exactly the header's names as keys. *)
Lemma foldl_insert_is_Some {A B : Type} (g : A → string) (f : A → option B)
    (l : list A) (d : gmap string (option B)) (k : string) :
  is_Some (foldl (λ d x, <[g x := f x]> d) d l !! k) ↔ is_Some (d !! k) ∨ k ∈ g <$> l.
Proof.
  revert d. induction l as [|x l IH]; intros d; simpl.
  - rewrite elem_of_nil. tauto.
  - rewrite IH, lookup_insert_is_Some', elem_of_cons. intuition congruence.
Qed.

Lemma zip_fst_take {A B : Type} (l : list A) (k : list B) :
  (zip l k).*1 = take (length k) l.
Proof.
  revert k. induction l as [|x l IH]; intros [|y k]; simpl; try reflexivity.
  by rewrite IH.
Qed.

Lemma make_row_is_Some (fieldnames : list string) (row : record) (k : string) :
  is_Some (make_row fieldnames row !! k) ↔ k ∈ fieldnames.
Proof.
  unfold make_row.
  rewrite (foldl_insert_is_Some id (λ _, None)).
  rewrite (foldl_insert_is_Some fst (λ kv, Some kv.2)).
  rewrite lookup_empty, list_fmap_id, zip_fst_take.
  rewrite <- (take_drop (length row) fieldnames) at 3.
  rewrite elem_of_app. split; [|tauto].
  intros [[[? [=]]|?]|?]; tauto.
Qed.

Lemma DictReader_is_Some (fieldnames : list string) (rows : list record)
    (row : pyrow) (k : string) :
  row ∈ DictReader (fieldnames :: rows) → is_Some (row !! k) ↔ k ∈ fieldnames.
Proof.
  simpl. intros (r & -> & _)%list_elem_of_fmap. apply make_row_is_Some.
Qed.

(** What one turn of the loop of [get_today_minutes] does. *)
Lemma today_row_cases (today : string) (total : num) (row : pyrow) :
  CSVLogger.today_row today total row =
  match row !! "date" with
  | None => inl KeyError
  | Some date =>
      if decide (date = Some today) then
        match row !! "minutes" with
        | Some None => inl TypeError
        | _ => inr (from_option (fadd total) total (minutes_of_row row))
        end
      else inr total
  end.
Proof.
  unfold CSVLogger.today_row, minutes_of_row, getitem.
  destruct (row !! "date") as [date|]; [|reflexivity]. simpl.
  destruct (decide (date = Some today)); [|reflexivity].
  destruct (row !! "minutes") as [[m|]|]; simpl; try reflexivity.
  by destruct (float_of_str m).
Qed.

Lemma for_rows_today (today : string) (rows : list pyrow) (total : num) :
  (∀ row, row ∈ rows → is_Some (row !! "date")) →
  (∀ row, row ∈ rows → row !! "date" = Some (Some today) →
          row !! "minutes" ≠ Some None) →
  for_rows (CSVLogger.today_row today) total rows =
  inr (foldl fadd total (today_minutes today rows)).
Proof.
  revert total. induction rows as [|row rows IH]; intros total Hdate Hmin.
  { reflexivity. }
  assert (Hrow : row ∈ row :: rows) by left.
  specialize (Hdate row Hrow) as Hd. specialize (Hmin row Hrow) as Hm.
  cbn [for_rows today_minutes omap list_omap]. rewrite today_row_cases.
  destruct Hd as [date Hd]. rewrite Hd in *.
  assert (Hrest : ∀ t, for_rows (CSVLogger.today_row today) t rows =
                       inr (foldl fadd t (today_minutes today rows))).
  { intros t. apply IH; intros r Hr; [apply Hdate|apply Hmin]; by right. }
  destruct (decide (date = Some today)) as [->|Hne].
  - rewrite decide_True by done.
    destruct (row !! "minutes") as [[m|]|] eqn:Em;
      [| by destruct Hm | ]; simpl; rewrite Hrest;
      unfold minutes_of_row; rewrite Em; simpl; [|reflexivity].
    by destruct (float_of_str m).
  - rewrite decide_False by congruence. simpl. apply Hrest.
Qed.

(** A record dated today that is short of its minutes field ends the loop,
    and today's total is reported as 0 whatever came before. *)
Lemma for_rows_today_aborts (today : string) (rows : list pyrow) (total : num) :
  (∃ row, row ∈ rows ∧ row !! "date" = Some (Some today)
          ∧ row !! "minutes" = Some None) →
  ∃ e, for_rows (CSVLogger.today_row today) total rows = inl e.
Proof.
  revert total.
  induction rows as [|row rows IH]; intros total (r & Hr & Hdate & Hshort).
  { by apply elem_of_nil in Hr. }
  cbn [for_rows].
  destruct (CSVLogger.today_row today total row) as [e|total'] eqn:Hrow; simpl.
  { by exists e. }
  apply IH. exists r. split; [|done].
  apply elem_of_cons in Hr as [->|Hr]; [|done].
  rewrite today_row_cases, Hdate, Hshort in Hrow.
  by rewrite decide_True in Hrow.
Qed.

Lemma short_record_zeroes_today_minutes (now : Z) (f : list record) (row : pyrow) :
  row ∈ DictReader f → row !! "date" = Some (Some (str_date now)) →
  row !! "minutes" = Some None →
  CSVLogger.get_today_minutes now (Some f) = zero.
Proof.
  intros Hrow Hdate Hshort. unfold CSVLogger.get_today_minutes.
  destruct (for_rows_today_aborts (str_date now) (DictReader f) zero) as [e He];
    [eauto|].
  cbv zeta. by rewrite He.
Qed.

(** C3. When the rows dated today are N well-formed rows, today's minutes
    are the sum of the minutes of exactly those N rows, added in file
    order from 0; rows with another date, whatever they hold, contribute
    nothing. *)
Theorem get_today_minutes_sums_today_rows (now : Z) (f : list record) :
  (∀ row, row ∈ DictReader f → row !! "date" = Some (Some (str_date now)) →
          is_Some (minutes_of_row row)) →
  CSVLogger.get_today_minutes now (Some f) =
    total_of (today_minutes (str_date now) (DictReader f))
  ∧ length (today_minutes (str_date now) (DictReader f)) =
    length (filter (λ row : pyrow, row !! "date" = Some (Some (str_date now)))
                   (DictReader f)).
Proof.
  intros Hwf. set (today := str_date now) in *. split.
  - unfold CSVLogger.get_today_minutes, total_of. fold today.
    destruct f as [|fieldnames rows]; [reflexivity|].
    destruct (decide ("date" ∈ fieldnames)) as [Hin|Hnotin].
    + rewrite for_rows_today; [reflexivity| |].
      * intros row Hrow. by apply (DictReader_is_Some fieldnames rows).
      * intros row Hrow Hd Hm. destruct (Hwf row Hrow Hd) as [x Hx].
        unfold minutes_of_row in Hx. by rewrite Hm in Hx.
    + assert (Hnone : ∀ row, row ∈ DictReader (fieldnames :: rows) →
                             row !! "date" = None).
      { intros row Hrow. apply eq_None_not_Some.
        by rewrite (DictReader_is_Some fieldnames rows). }
      destruct (DictReader (fieldnames :: rows)) as [|row rest]; [reflexivity|].
      assert (Hempty : today_minutes today (row :: rest) = []).
      { clear -Hnone. induction (row :: rest) as [|r l IH]; [reflexivity|].
        cbn [today_minutes omap list_omap]. rewrite (Hnone r) by left.
        rewrite decide_False by done. apply IH. intros; apply Hnone. by right. }
      rewrite Hempty. cbn [for_rows]. rewrite today_row_cases, (Hnone row) by left.
      reflexivity.
  - induction (DictReader f) as [|row rows IH]; [reflexivity|].
    cbn [today_minutes omap list_omap]. rewrite filter_cons.
    destruct (decide (row !! "date" = Some (Some today))) as [Hd|Hd].
    + destruct (Hwf row) as [x ->]; [by left|done|]. simpl. f_equal.
      apply IH. intros; apply Hwf; [by right|done].
    + apply IH. intros; apply Hwf; [by right|done].
Qed.

(** What one turn of the loop of [get_weekly_data] does: a row that lacks
    a column of the header or whose minutes do not parse is skipped, a
    short record ends the loop with [TypeError]. *)
Lemma weekly_row_cases (data : table) (row : pyrow) :
  CSVLogger.weekly_row data row =
  if decide (short_of_minutes row) then inl TypeError
  else inr (match entry_of_row row with
            | Some (date, subject, minutes) =>
                CSVLogger.add_minutes data date subject minutes
            | None => data
            end).
Proof.
  unfold CSVLogger.weekly_row, entry_of_row, minutes_of_row, short_of_minutes, getitem.
  destruct (row !! "date") as [date|]; destruct (row !! "subject") as [subject|];
    destruct (row !! "minutes") as [[m|]|]; simpl;
    try destruct (float_of_str m); simpl;
    try case_decide; try reflexivity;
    try match goal with
        | Hs : _ ∧ _ ∧ _ |- _ =>
            destruct Hs as ([? ?] & [? ?] & ?); discriminate
        | Hs : ¬ _ |- _ => destruct Hs; eauto
        end.
Qed.

Lemma entry_add_minutes (data : table) (date subject date' subject' : option string)
    (minutes : num) :
  entry (CSVLogger.add_minutes data date subject minutes) date' subject' =
  if decide (date = date' ∧ subject = subject')
  then Some (fadd (default zero (entry data date subject)) minutes)
  else entry data date' subject'.
Proof.
  unfold entry, CSVLogger.add_minutes.
  destruct (decide (date = date')) as [<-|Hd].
  - rewrite lookup_insert_eq. simpl.
    destruct (decide (subject = subject')) as [<-|Hs].
    + rewrite lookup_insert_eq, decide_True by done.
      by destruct (data !! date).
    + rewrite lookup_insert_ne, decide_False by tauto.
      by destruct (data !! date).
  - by rewrite lookup_insert_ne, decide_False by tauto.
Qed.

Lemma add_minutes_is_Some (data : table) (date subject date' : option string)
    (minutes : num) :
  is_Some (CSVLogger.add_minutes data date subject minutes !! date') ↔
  date = date' ∨ is_Some (data !! date').
Proof.
  unfold CSVLogger.add_minutes. rewrite lookup_insert_is_Some'. tauto.
Qed.

(** The loop of [get_weekly_data], when it runs to the end: every
    (date, subject) gains the minutes of its well-formed rows, in file
    order, and a date is a key afterwards exactly when it was one or is
    the date of a well-formed row. *)
Lemma for_rows_weekly (rows : list pyrow) (data data' : table) :
  for_rows CSVLogger.weekly_row data rows = inr data' →
  (∀ date subject,
     entry data' date subject =
     match minutes_for date subject rows with
     | [] => entry data date subject
     | l => Some (foldl fadd (default zero (entry data date subject)) l)
     end)
  ∧ (∀ date, is_Some (data' !! date) ↔
             is_Some (data !! date)
             ∨ ∃ row subject x, row ∈ rows ∧ entry_of_row row = Some (date, subject, x)).
Proof.
  revert data. induction rows as [|row rows IH]; intros data Hrun.
  { injection Hrun as <-. split; [reflexivity|].
    intros date. split; [tauto|]. intros [?|(? & ? & ? & []%elem_of_nil & _)]; done. }
  cbn [for_rows] in Hrun. rewrite weekly_row_cases in Hrun.
  destruct (decide (short_of_minutes row)); [discriminate|]. simpl in Hrun.
  destruct (IH _ Hrun) as [Hentry Hkeys]. clear IH Hrun. split.
  - intros date subject. rewrite Hentry. clear Hentry Hkeys.
    cbn [minutes_for omap list_omap]. fold (minutes_for date subject rows).
    destruct (entry_of_row row) as [[[d s] x]|]; simpl; [|reflexivity].
    rewrite entry_add_minutes.
    destruct (decide (d = date ∧ s = subject)) as [[-> ->]|]; [|reflexivity].
    simpl. by destruct (minutes_for date subject rows).
  - intros date. rewrite Hkeys. clear Hentry Hkeys.
    destruct (entry_of_row row) as [[[d s] x]|] eqn:Erow.
    + rewrite add_minutes_is_Some. split.
      * intros [[->|?]|(r & s' & x' & Hr & Hrx)]; [right|by left|right].
        -- exists row, s, x. split; [by left|done].
        -- exists r, s', x'. split; [by right|done].
      * intros [?|(r & s' & x' & [->|Hr]%elem_of_cons & Hrx)].
        -- left; by right.
        -- left; left. congruence.
        -- right. eauto.
    + split.
      * intros [?|(r & s' & x' & Hr & Hrx)]; [by left|right].
        exists r, s', x'. split; [by right|done].
      * intros [?|(r & s' & x' & [->|Hr]%elem_of_cons & Hrx)];
          [by left|congruence|right; eauto].
Qed.

Lemma for_rows_weekly_runs (rows : list pyrow) (data : table) :
  (∀ row, row ∈ rows → ¬ short_of_minutes row) →
  ∃ data', for_rows CSVLogger.weekly_row data rows = inr data'.
Proof.
  revert data. induction rows as [|row rows IH]; intros data Hshort.
  { by exists data. }
  cbn [for_rows]. rewrite weekly_row_cases.
  rewrite decide_False by (apply Hshort; by left). simpl.
  apply IH. intros; apply Hshort. by right.
Qed.

(** One record short of its minutes field, under a header that has the
    three columns, is enough to empty both aggregations. *)
Lemma for_rows_weekly_aborts (rows : list pyrow) (data : table) :
  (∃ row, row ∈ rows ∧ short_of_minutes row) →
  for_rows CSVLogger.weekly_row data rows = inl TypeError.
Proof.
  revert data. induction rows as [|row rows IH]; intros data (r & Hr & Hshort).
  { by apply elem_of_nil in Hr. }
  cbn [for_rows]. rewrite weekly_row_cases.
  destruct (decide (short_of_minutes row)); [reflexivity|]. simpl.
  apply IH. exists r. split; [|done].
  apply elem_of_cons in Hr as [->|Hr]; done.
Qed.

Lemma short_record_empties_weekly_data (f : list record) (row : pyrow) :
  row ∈ DictReader f → short_of_minutes row →
  CSVLogger.get_weekly_data (Some f) = ∅ ∧ CSVLogger.get_all_data (Some f) = ∅.
Proof.
  intros Hrow Hshort.
  assert (Hweekly : for_rows CSVLogger.weekly_row ∅ (DictReader f) = inl TypeError)
    by (apply for_rows_weekly_aborts; eauto).
  pose proof (for_rows_all_row (DictReader f) ∅) as Hall. rewrite Hweekly in Hall.
  unfold CSVLogger.get_weekly_data, CSVLogger.get_all_data.
  split; [by rewrite Hweekly|by rewrite Hall].
Qed.

(** C2, as the code has it.  [get_weekly_data] does not cut the log down
    to seven dates: every date key of its result is the date of a
    well-formed row of the file, each entry is the sum of the minutes of
    the well-formed rows with that date and subject, and, when no record
    of the file is short of its minutes field, every date of a well-formed
    row is a key, however many dates there are. *)
Theorem get_weekly_data_all_dates (file : option (list record)) :
  let data := CSVLogger.get_weekly_data file in
  (∀ date, is_Some (data !! date) →
     ∃ row subject x, row ∈ rows_of file ∧ entry_of_row row = Some (date, subject, x))
  ∧ (∀ date subject x, entry data date subject = Some x →
       x = total_of (minutes_for date subject (rows_of file)))
  ∧ ((∀ row, row ∈ rows_of file → ¬ short_of_minutes row) →
     ∀ row date subject x, row ∈ rows_of file →
       entry_of_row row = Some (date, subject, x) →
       is_Some (data !! date)
       ∧ entry data date subject = Some (total_of (minutes_for date subject (rows_of file)))).
Proof.
  simpl. unfold CSVLogger.get_weekly_data.
  assert (Hloop : for_rows CSVLogger.weekly_row ∅ (rows_of file) =
                  match file with
                  | Some f => for_rows CSVLogger.weekly_row ∅ (DictReader f)
                  | None => mret ∅
                  end) by by destruct file.
  rewrite <- Hloop. clear Hloop. generalize (rows_of file). intros rows.
  destruct (for_rows CSVLogger.weekly_row ∅ rows) as [e|data] eqn:Hrun; simpl.
  - split; [|split].
    + intros date [? Hd]. by rewrite lookup_empty in Hd.
    + intros date subject x. unfold entry. by rewrite lookup_empty.
    + intros Hshort. destruct (for_rows_weekly_runs rows ∅ Hshort). congruence.
  - destruct (for_rows_weekly rows ∅ data Hrun) as [Hentry Hkeys].
    assert (Hnon : ∀ date subject row x, row ∈ rows →
              entry_of_row row = Some (date, subject, x) →
              minutes_for date subject rows ≠ []).
    { clear. intros date subject row x Hrow Hx.
      induction rows as [|r rows IH]; [by apply elem_of_nil in Hrow|].
      cbn [minutes_for omap list_omap].
      apply elem_of_cons in Hrow as [<-|Hrow].
      - rewrite Hx. simpl. by rewrite decide_True.
      - specialize (IH Hrow). fold (minutes_for date subject rows).
        by destruct (_ ≫= _). }
    split; [|split].
    + intros date Hd. apply Hkeys in Hd as [[? Hd]|Hd]; [|done].
      by rewrite lookup_empty in Hd.
    + intros date subject x. rewrite Hentry. unfold entry at 1 2.
      rewrite lookup_empty. simpl.
      destruct (minutes_for date subject rows) eqn:E; [done|].
      by intros [= <-].
    + intros _ row date subject x Hrow Hx. split.
      * apply Hkeys. right. eauto.
      * rewrite Hentry. unfold entry at 1 2. rewrite lookup_empty. simpl.
        pose proof (Hnon date subject row x Hrow Hx).
        by destruct (minutes_for date subject rows).
Qed.

End Aggregation.

(** ** The hour buckets *)

Section Buckets.

Lemma sumZ_cons (x : Z) (l : list Z) : sumZ (x :: l) = (x + sumZ l)%Z.
Proof. reflexivity. Qed.


Lemma sumZ_app (l k : list Z) : sumZ (l ++ k) = (sumZ l + sumZ k)%Z.
Proof. induction l as [|x l IH]; cbn [app]; rewrite ?sumZ_cons; [done|]. rewrite IH. lia. Qed.











End Buckets.

Section HourlyChart.
Context `{PyTime} `{!PyDuration}.

Lemma credit_slices_length (end_time current : Z) (buckets : list num) :
  length (credit_slices end_time current buckets) = length buckets.
Proof.
  funelim (credit_slices end_time current buckets); try reflexivity.
  match goal with IH : length _ = _ |- _ => rewrite IH end. apply length_alter.
Qed.


Lemma credit_slices_nonneg (end_time current : Z) (buckets : list num) :
  Forall nonneg buckets → Forall nonneg (credit_slices end_time current buckets).
Proof.
  funelim (credit_slices end_time current buckets); intros Hnonneg; try done.
  match goal with IH : _ → Forall nonneg (credit_slices _ _ _) |- _ => apply IH end.
  apply Forall_alter; [done|]. intros v _ Hv.
  apply nonneg_fadd; [done|]. apply nonneg_total_minutes.
  pose proof (HOUR_floor_bounds current). unfold replace_minute0. lia.
Qed.


Lemma hourly_row_cases (dates : list (option string)) (hourly_by_day : chart)
    (row : pyrow) :
  hourly_row dates hourly_by_day row =
  match row !! "date" with
  | None => inl KeyError
  | Some date =>
      inr (if decide (date ∈ dates) then
             match session_of_row row with
             | inr (start_time, end_time) =>
                 alter (credit_slices end_time start_time) date hourly_by_day
             | inl _ => hourly_by_day
             end
           else hourly_by_day)
  end.
Proof.
  unfold hourly_row, getitem.
  destruct (row !! "date") as [date|]; [|reflexivity]. simpl.
  destruct (decide (date ∈ dates)); [|reflexivity].
  by destruct (session_of_row row) as [?|[? ?]].
Qed.





End HourlyChart.

(** ** The daily goal and the countdown *)

Section App.
Context `{PyTime}.
Import StudyTrackerApp.

(** C10. [set_goal] changes the daily goal only when the text is an
    integer above 0, and then stores that integer capped at 1440, so 1440
    for anything larger; when the text is no integer or one that is not
    positive, the state is what it was but for the error dialog, and
    nothing is raised.  When the progress display is refreshed without an
    exception, the capped goal is also what the config object and the
    config file hold afterwards. *)
Theorem set_goal_positive_integer_capped (now : Z) (goal_var : string) (s : app) :
  let s' := (set_goal now goal_var s).1 in
  (daily_goal s' ≠ daily_goal s → ∃ n, int_of_str goal_var = Some n ∧ (0 < n)%Z)
  ∧ (∀ n, int_of_str goal_var = Some n → (0 < n)%Z →
       daily_goal s' = PInt (Z.min n 1440))
  ∧ (∀ n, int_of_str goal_var = Some n → (1440 < n)%Z → daily_goal s' = PInt 1440)
  ∧ ((∀ n, int_of_str goal_var = Some n → (n ≤ 0)%Z) →
       set_goal now goal_var s = (show invalid_goal s, None))
  ∧ (∀ n, int_of_str goal_var = Some n → (0 < n)%Z →
       update_goal_progress now (with_daily_goal (PInt (Z.min n 1440)) s) = inr () →
       ConfigManager.daily_goal (config s') = PInt (Z.min n 1440)
       ∧ config_file s' =
         Some (inr (PDict [("subjects", ConfigManager.subjects (config s));
                           ("daily_goal", PInt (Z.min n 1440));
                           ("theme", ConfigManager.theme (config s))]))).
Proof.
  assert (Hvalid : ∀ n, int_of_str goal_var = Some n → (0 < n)%Z →
            daily_goal (set_goal now goal_var s).1 = PInt (Z.min n 1440)).
  { intros n Hn Hpos. unfold set_goal. rewrite Hn.
    rewrite decide_False by lia.
    assert ((if decide (n > 1440)%Z then 1440%Z else n) = Z.min n 1440) as ->
      by (case_decide; lia).
    by destruct (update_goal_progress _ _) as [[]|[]]. }
  simpl. split; [|split; [|split; [|split]]].
  - intros Hchanged. unfold set_goal in Hchanged.
    destruct (int_of_str goal_var) as [n|]; [|done].
    destruct (decide (n ≤ 0)%Z); [done|]. exists n. split; [done|lia].
  - exact Hvalid.
  - intros n Hn Hbig. rewrite (Hvalid n Hn) by lia. f_equal. lia.
  - intros Hinvalid. unfold set_goal.
    destruct (int_of_str goal_var) as [n|]; [|done].
    by rewrite decide_True by by apply Hinvalid.
  - intros n Hn Hpos Hshown. unfold set_goal. rewrite Hn.
    rewrite decide_False by lia.
    assert ((if decide (n > 1440)%Z then 1440%Z else n) = Z.min n 1440) as ->
      by (case_decide; lia).
    by rewrite Hshown.
Qed.

(** C8, as the code has it.  A tick that finds [remaining_time] above 0
    takes exactly 1 off it, whether the timer is running or not, and arms
    the next callback only when [timer_running] is true.  Once
    [timer_running] is false no tick arms a callback, so every callback
    still armed runs once, takes at most 1 off, and then no tick is left;
    and no tick makes a [remaining_time] that is not negative negative. *)
Theorem update_timer_tick (now : Z) (duration_var subject_var : string) (s : app) :
  ((0 < remaining_time s)%Z →
     ∃ s', update_timer now duration_var subject_var s = (s', None)
       ∧ remaining_time s' = (remaining_time s - 1)%Z
       ∧ timer_running s' = timer_running s
       ∧ pending s' = (if timer_running s then S (pending s) else pending s))
  ∧ (timer_running s = false →
       ∀ inputs s', ticks inputs s = Some s' →
         timer_running s' = false
         ∧ pending s = length inputs + pending s'
         ∧ (remaining_time s - Z.of_nat (length inputs) ≤ remaining_time s'
            ≤ remaining_time s)%Z)
  ∧ ((0 ≤ remaining_time s)%Z →
       (0 ≤ remaining_time (update_timer now duration_var subject_var s).1)%Z).
Proof.
  split; [|split].
  - intros Hpos. unfold update_timer. rewrite decide_False by lia.
    destruct s as [c g [] r l p lf cf d]; simpl in *; eauto 10.
  - intros Hstopped inputs. revert s Hstopped.
    induction inputs as [|[[now' dv] sv] inputs IH]; intros s Hstopped s' Hrun.
    { injection Hrun as <-. simpl. split; [done|]. lia. }
    cbn [ticks] in Hrun. unfold tick in Hrun.
    destruct (pending s) as [|n] eqn:Hp; [discriminate|].
    destruct (update_timer now' dv sv (with_pending n s)) as [s1 e] eqn:Hstep.
    assert (timer_running s1 = false ∧ pending s1 = n
            ∧ (remaining_time s - 1 ≤ remaining_time s1 ≤ remaining_time s)%Z)
      as (Hs1 & Hp1 & Hr1).
    { unfold update_timer in Hstep.
      destruct s as [c g [] r l p lf cf d]; simpl in *; [discriminate|].
      destruct (decide (r ≤ 0)%Z); injection Hstep as <- <-; simpl; lia. }
    destruct (IH s1 Hs1 s' Hrun) as (? & ? & ?).
    cbn [length]. split; [done|]. lia.
  - intros Hnonneg. unfold update_timer.
    destruct (decide (remaining_time s ≤ 0)%Z).
    + assert (Hlog : ∀ s0, remaining_time (log_complete now duration_var subject_var s0).1
                           = remaining_time s0).
      { intros s0. unfold log_complete.
        destruct (float_of_str duration_var); [|done].
        destruct (decide (subject_var = "")); [done|].
        destruct (update_goal_progress _ _); [done|].
        by destruct (int_of_float _). }
      destruct (timer_running s).
      * specialize (Hlog s).
        destruct (log_complete now duration_var subject_var s) as [s1 [[]|[]]];
          simpl in *; lia.
      * simpl. lia.
    + destruct s as [c g [] r l p lf cf d]; simpl in *; lia.
Qed.

End App.


(** ** The settings page *)

Section Settings.
Context `{PyTime} `{!PyText}.
Import StudyTrackerApp.

(** X1. What [save_config] writes, [load_config] reads back: loading the
    file just written yields the three fields of the object that saved
    it, whatever the loading object held before. *)
Theorem save_config_load_config (self other : ConfigManager.config)
    (new_subjects new_daily_goal new_theme : option pyval) :
  ConfigManager.load_config other
    (ConfigManager.save_config self new_subjects new_daily_goal new_theme).2
  = (ConfigManager.save_config self new_subjects new_daily_goal new_theme).1.
Proof.
  destruct self as [subjects goal theme].
  destruct new_subjects, new_daily_goal, new_theme; reflexivity.
Qed.

Lemma not_None_default (v : pyval) : default v (not_None v) = v.
Proof. by destruct v. Qed.

(** X2. [toggle_theme] never stores "system": the theme it saves is
    "dark" when the theme was "light" and "light" in every other case,
    the subjects and the goal stay what they were, and the config file
    holds the three fields afterwards. *)
Theorem toggle_theme_light_or_dark (s : app) :
  let s' := toggle_theme s in
  ConfigManager.theme (config s') =
    PStr (if is_str (ConfigManager.theme (config s)) "light" then "dark" else "light")
  ∧ ConfigManager.subjects (config s') = ConfigManager.subjects (config s)
  ∧ ConfigManager.daily_goal (config s') = ConfigManager.daily_goal (config s)
  ∧ config_file s' =
      Some (inr (PDict [("subjects", ConfigManager.subjects (config s'));
                        ("daily_goal", ConfigManager.daily_goal (config s'));
                        ("theme", ConfigManager.theme (config s'))])).
Proof.
  destruct s as [[subjects goal theme] g r t l p lf cf d]. cbn -[is_str].
  rewrite !not_None_default. split; [|done].
  destruct theme as [| | | |mode| |]; try reflexivity. cbn.
  destruct (decide (mode = "light")) as [->|Hlight]; [reflexivity|].
  rewrite (bool_decide_eq_false_2 (mode = "light")) by done. cbn.
  destruct (decide (mode = "dark")) as [->|Hdark]; [reflexivity|].
  by rewrite (bool_decide_eq_false_2 (mode = "dark")) by done.
Qed.

(** X3. Two presses of the theme button give back a theme that was
    "light" or "dark". *)
Theorem toggle_theme_twice (s : app) :
  ConfigManager.theme (config s) = PStr "light"
  ∨ ConfigManager.theme (config s) = PStr "dark" →
  config (toggle_theme (toggle_theme s)) = config s.
Proof.
  intros Htheme.
  destruct (toggle_theme_light_or_dark (toggle_theme s)) as (Ht2 & Hs2 & Hg2 & _).
  destruct (toggle_theme_light_or_dark s) as (Ht1 & Hs1 & Hg1 & _).
  cbv zeta in *. rewrite Ht1 in Ht2. rewrite Hs1 in Hs2. rewrite Hg1 in Hg2.
  destruct (config (toggle_theme (toggle_theme s))) as [subjects2 goal2 theme2].
  destruct (config s) as [subjects goal theme]. cbn in *. subst subjects2 goal2.
  f_equal. rewrite Ht2. by destruct Htheme as [->| ->].
Qed.

Lemma split_lines_one_line (line : string) : one_line line → split_lines line = [line].
Proof.
  unfold one_line. induction line as [|c line IH]; cbn; intros Hline; [done|].
  rewrite not_elem_of_cons in Hline. destruct Hline as [Hc Hline].
  rewrite decide_False by done. by rewrite IH.
Qed.

Lemma split_lines_String (c : ascii) (rest : string) :
  split_lines (String c rest) =
  if decide (c = "010"%char) then "" :: split_lines rest
  else match split_lines rest with
       | line :: lines => String c line :: lines
       | [] => [String c ""]
       end.
Proof. reflexivity. Qed.

Lemma split_lines_app (line rest : string) :
  one_line line →
  split_lines (line ++ String "010"%char rest) = line :: split_lines rest.
Proof.
  unfold one_line. induction line as [|c line IH]; intros Hline.
  - change ("" ++ String "010"%char rest) with (String "010"%char rest).
    by rewrite split_lines_String, decide_True.
  - cbn [list_ascii_of_string] in Hline.
    rewrite not_elem_of_cons in Hline. destruct Hline as [Hc Hline].
    change (String c line ++ String "010"%char rest)
      with (String c (line ++ String "010"%char rest)).
    rewrite split_lines_String, decide_False by done. by rewrite IH.
Qed.

(** Splitting at line feeds undoes joining with them. *)
Lemma split_lines_join_lines (lines : list string) :
  lines ≠ [] → Forall one_line lines → split_lines (join_lines lines) = lines.
Proof.
  induction lines as [|line [|next rest] IH]; intros Hne Hlines; [done| |].
  - apply Forall_cons in Hlines as [Hline _]. by apply split_lines_one_line.
  - apply Forall_cons in Hlines as [Hline Hrest].
    change (join_lines (line :: next :: rest))
      with (line ++ String "010"%char (join_lines (next :: rest))).
    rewrite split_lines_app by done. f_equal. by apply IH.
Qed.

(** X4. The settings page round trip: the text box is filled with the
    subjects joined by line feeds, and saving that text unchanged stores
    the same subjects, provided there is at least one and each is a
    single line, not empty, and is what [strip] makes of it. *)
Theorem save_subjects_of_joined (subjects : list string) (s : app) :
  subjects ≠ [] →
  Forall (λ subject, one_line subject ∧ subject ≠ "" ∧ strip subject = subject)
         subjects →
  ConfigManager.subjects (config (save_subjects (join_lines subjects) s))
  = PList (PStr <$> subjects).
Proof.
  intros Hne Hclean. unfold save_subjects.
  rewrite split_lines_join_lines;
    [|done|by eapply Forall_impl; [done|]; intros ? (? & _)].
  assert (Hstrip : strip <$> subjects = subjects).
  { clear Hne. induction Hclean as [|x l (_ & _ & Hx) _ IH]; [done|].
    cbn. by rewrite Hx, IH. }
  assert (Hfilter : filter (λ s_clean, s_clean ≠ "") subjects = subjects).
  { clear Hne Hstrip. induction Hclean as [|x l (_ & Hx & _) _ IH]; [done|].
    by rewrite filter_cons_True, IH by done. }
  rewrite Hstrip, Hfilter. by rewrite decide_False by done.
Qed.

(** X5. [save_subjects] never stores an empty list or an empty subject:
    either the text has no line with anything left after [strip], and
    then nothing changes but for the error dialog, or some line has, and
    the subjects stored are a non-empty list of non-empty strings, the
    stripped lines that are not empty in their order, with goal and theme
    untouched. *)
Theorem save_subjects_never_empty (text : string) (s : app) :
  let s' := save_subjects text s in
  (Forall (λ line, strip line = "") (split_lines text)
   ∧ s' = show (showerror "Error" "Please enter at least one subject") s)
  ∨ ((∃ line, line ∈ split_lines text ∧ strip line ≠ "")
     ∧ ∃ subjects,
         subjects = filter (λ subject, subject ≠ "") (strip <$> split_lines text)
         ∧ subjects ≠ [] ∧ Forall (λ subject, subject ≠ "") subjects
         ∧ subjects `sublist_of` (strip <$> split_lines text)
         ∧ ConfigManager.subjects (config s') = PList (PStr <$> subjects)
         ∧ ConfigManager.daily_goal (config s') = ConfigManager.daily_goal (config s)
         ∧ ConfigManager.theme (config s') = ConfigManager.theme (config s)
         ∧ daily_goal s' = daily_goal s).
Proof.
  cbv zeta. unfold save_subjects.
  set (new_subjects := filter _ _).
  destruct (decide (new_subjects = [])) as [Hnil|Hne]; [left|right].
  - split; [|done]. apply Forall_forall. intros line Hline.
    destruct (decide (strip line = "")) as [|Hleft]; [done|].
    assert (Hin : strip line ∈ new_subjects).
    { apply list_elem_of_filter. split; [done|].
      apply list_elem_of_fmap. by exists line. }
    rewrite Hnil in Hin. by apply elem_of_nil in Hin.
  - split.
    + destruct new_subjects as [|subject rest] eqn:Hnew; [done|].
      assert (Hin : subject ∈ new_subjects) by (rewrite Hnew; left).
      apply list_elem_of_filter in Hin as [Hsubject Hin].
      apply list_elem_of_fmap in Hin as (line & -> & Hline). by exists line.
    + exists new_subjects. repeat split; try done.
      * apply Forall_forall. by intros x [? _]%list_elem_of_filter.
      * apply sublist_filter.
Qed.


End Settings.


(** ** Logging, then reading *)

Section LogThenRead.
Context `{PyTime}.

Lemma for_rows_app {S : Type} (body : S → pyrow → result S) (s : S)
    (rows rows' : list pyrow) :
  for_rows body s (rows ++ rows') =
  (s' ← for_rows body s rows; for_rows body s' rows').
Proof.
  revert s. induction rows as [|row rows IH]; intros s; [reflexivity|].
  cbn [app for_rows]. destruct (body s row) as [e|s1]; [reflexivity|].
  apply IH.
Qed.

Lemma DictReader_snoc (fieldnames : record) (rows : list record) (r : record) :
  r ≠ [] →
  DictReader ((fieldnames :: rows) ++ [r]) =
  (DictReader (fieldnames :: rows) ++ [make_row fieldnames r])%list.
Proof.
  intros Hr. cbn [app DictReader].
  rewrite filter_app, fmap_app. f_equal.
  by rewrite filter_cons_True.
Qed.

(** The row that [log] writes, read under the header that [__init__]
    writes. *)
Lemma logged_row (now : Z) (subject : string) (minutes : num) (rows : list record) :
  let row := make_row ["date"; "timestamp"; "subject"; "minutes"]
               [str_date now; strftime_HMS now; subject; str_num (round2 minutes)] in
  DictReader (CSVLogger.log now subject minutes
                (Some (CSVLogger.init None ++ rows)%list)) =
    (DictReader (CSVLogger.init None ++ rows) ++ [row])%list
  ∧ row !! "date" = Some (Some (str_date now))
  ∧ row !! "subject" = Some (Some subject)
  ∧ row !! "minutes" = Some (Some (str_num (round2 minutes))).
Proof.
  cbv zeta. split; [|by repeat split].
  by apply (DictReader_snoc ["date"; "timestamp"; "subject"; "minutes"] rows).
Qed.

(** X7. A session logged into a file that [CSVLogger] created shows up
    in today's minutes: read on the day of the session the total grows by
    the minutes written, read on another day it stays what it was.  The
    minutes written are the session's, rounded to two places and read
    back by [float]; no record dated on the day of the reading is short
    of its minutes field. *)
Theorem log_then_get_today_minutes (now now' : Z) (subject : string)
    (minutes x : num) (rows : list record) :
  let f := (CSVLogger.init None ++ rows)%list in
  float_of_str (str_num (round2 minutes)) = Some x →
  (∀ row, row ∈ DictReader f → row !! "date" = Some (Some (str_date now')) →
          row !! "minutes" ≠ Some None) →
  CSVLogger.get_today_minutes now' (Some (CSVLogger.log now subject minutes (Some f))) =
  if decide (str_date now = str_date now')
  then fadd (CSVLogger.get_today_minutes now' (Some f)) x
  else CSVLogger.get_today_minutes now' (Some f).
Proof.
  intros f Hx Hfull.
  destruct (logged_row now subject minutes rows) as (Hrows & Hdate & _ & Hmin).
  fold f in Hrows. unfold CSVLogger.get_today_minutes. cbv zeta.
  rewrite Hrows, for_rows_app.
  rewrite for_rows_today; [|intros row Hrow|done].
  2:{ apply (DictReader_is_Some ["date"; "timestamp"; "subject"; "minutes"] rows
               row "date" Hrow). left. }
  cbn [mbind result_bind for_rows except_Exception].
  rewrite today_row_cases, Hdate, Hmin.
  unfold minutes_of_row. rewrite Hmin. cbn [mbind option_bind]. rewrite Hx.
  destruct (decide (str_date now = str_date now')) as [->|Hne].
  - by rewrite decide_True.
  - by rewrite decide_False by congruence.
Qed.

(** X8. ... and in the weekly data: the entry of the session's date and
    subject grows by the minutes written, starting from 0 when there was
    none, and every other entry stays what it was.  No record of the file
    is short of its minutes field. *)
Theorem log_then_get_weekly_data (now : Z) (subject : string) (minutes x : num)
    (rows : list record) (date' subject' : option string) :
  let f := (CSVLogger.init None ++ rows)%list in
  float_of_str (str_num (round2 minutes)) = Some x →
  (∀ row, row ∈ DictReader f → ¬ short_of_minutes row) →
  entry (CSVLogger.get_weekly_data (Some (CSVLogger.log now subject minutes (Some f))))
        date' subject' =
  if decide (Some (str_date now) = date' ∧ Some subject = subject')
  then Some (fadd (default zero
                     (entry (CSVLogger.get_weekly_data (Some f))
                            (Some (str_date now)) (Some subject))) x)
  else entry (CSVLogger.get_weekly_data (Some f)) date' subject'.
Proof.
  intros f Hx Hfull.
  destruct (logged_row now subject minutes rows) as (Hrows & Hdate & Hsubject & Hmin).
  fold f in Hrows. unfold CSVLogger.get_weekly_data.
  rewrite Hrows, for_rows_app.
  destruct (for_rows_weekly_runs (DictReader f) ∅ Hfull) as [data ->].
  cbn [mbind result_bind for_rows except_Exception].
  rewrite weekly_row_cases.
  rewrite decide_False by (intros (_ & _ & Hshort); congruence).
  unfold entry_of_row, minutes_of_row. rewrite Hdate, Hsubject, Hmin.
  cbn [mbind option_bind]. rewrite Hx. cbn [mbind result_bind].
  apply entry_add_minutes.
Qed.

(** X9. [log] writes no header: when the file is missing, the record of
    the session becomes the first line of the new file, where
    [DictReader] takes it for the header.  Unless one of its four fields
    is the word "date", neither that session nor anything logged after it
    is ever counted. *)
Theorem log_to_missing_file_is_not_read (now now' : Z) (subject : string)
    (minutes : num) (later : list record) :
  let f := (CSVLogger.log now subject minutes None ++ later)%list in
  "date" ∉ [str_date now; strftime_HMS now; subject; str_num (round2 minutes)] →
  CSVLogger.get_today_minutes now' (Some f) = zero
  ∧ CSVLogger.get_weekly_data (Some f) = ∅
  ∧ CSVLogger.get_all_data (Some f) = ∅.
Proof.
  intros f Hfirst.
  set (first := [str_date now; strftime_HMS now; subject; str_num (round2 minutes)])
    in *.
  assert (Hnone : ∀ row, row ∈ DictReader f → row !! "date" = None).
  { intros row Hrow. apply eq_None_not_Some.
    by rewrite (DictReader_is_Some first later). }
  assert (Hweekly : ∀ data, for_rows CSVLogger.weekly_row data (DictReader f) = inr data).
  { intros data. induction (DictReader f) as [|row rest IH]; [reflexivity|].
    cbn [for_rows]. rewrite weekly_row_cases.
    rewrite decide_False.
    2:{ intros ([? Hd] & _). rewrite (Hnone row) in Hd by left. done. }
    unfold entry_of_row. rewrite (Hnone row) by left.
    cbn [mbind option_bind result_bind]. apply IH. intros; apply Hnone. by right. }
  assert (Hall : for_rows CSVLogger.all_row ∅ (DictReader f) = inr ∅)
    by exact (eq_trans (for_rows_all_row _ _) (Hweekly ∅)).
  unfold CSVLogger.get_today_minutes, CSVLogger.get_weekly_data, CSVLogger.get_all_data.
  cbv zeta. split; [|split; [by rewrite Hweekly|by rewrite Hall]].
  clear Hweekly Hall.
  destruct (DictReader f) as [|row rest]; [reflexivity|].
  cbn [for_rows]. by rewrite today_row_cases, (Hnone row) by left.
Qed.

End LogThenRead.


(** ** Runs of the countdown *)

Section Countdown.
Context `{PyTime}.
Import StudyTrackerApp.

Lemma ticks_app (inputs inputs' : list (Z * string * string)) (s : app) :
  ticks (inputs ++ inputs') s = (s' ← ticks inputs s; ticks inputs' s').
Proof.
  revert s. induction inputs as [|[[now dv] sv] inputs IH]; intros s; [reflexivity|].
  cbn [List.app ticks]. destruct (tick now dv sv s) as [[s1 e]|]; [apply IH|reflexivity].
Qed.

(** While the timer runs and time is left, a tick takes one second off
    and changes nothing else: the callback it uses up is armed again. *)
Lemma running_ticks (inputs : list (Z * string * string)) (s : app) (n : nat) :
  timer_running s = true → pending s = S n →
  (Z.of_nat (length inputs) ≤ remaining_time s)%Z →
  ticks inputs s =
  Some (with_remaining_time (remaining_time s - Z.of_nat (length inputs)) s).
Proof.
  revert s. induction inputs as [|[[now dv] sv] inputs IH]; intros s Hrun Hp Hlen.
  { cbn [length ticks]. change (Z.of_nat 0) with 0%Z. rewrite Z.sub_0_r. by destruct s. }
  cbn [length] in Hlen. cbn [ticks]. unfold tick. rewrite Hp.
  assert (Hstep : update_timer now dv sv (with_pending n s) =
                  (with_remaining_time (remaining_time s - 1) s, None)).
  { unfold update_timer. destruct s as [c g run r l p lf cf d]. cbn in *. subst.
    by rewrite decide_False by lia. }
  rewrite Hstep, IH; [|by destruct s|by destruct s|destruct s; cbn in *; lia].
  assert (Hset : ∀ a b, with_remaining_time a (with_remaining_time b s)
                        = with_remaining_time a s) by by destruct s.
  assert (Hget : ∀ b, remaining_time (with_remaining_time b s) = b) by by destruct s.
  rewrite Hset, Hget. f_equal. f_equal. cbn [length]. lia.
Qed.

(** What [update_timer] does when the time is up. *)
Lemma update_timer_completes (now : Z) (duration_var subject_var : string)
    (total_duration : num) (s : app) :
  timer_running s = true → (remaining_time s ≤ 0)%Z →
  float_of_str duration_var = Some total_duration → subject_var ≠ "" →
  let s' := (update_timer now duration_var subject_var s).1 in
  log_file s' = Some (CSVLogger.log now subject_var total_duration (log_file s))
  ∧ remaining_time s' = remaining_time s ∧ pending s' = pending s.
Proof.
  intros Hrun Hr Hfloat Hsubject. cbv zeta. unfold update_timer, log_complete.
  rewrite decide_True by done. rewrite Hrun, Hfloat, decide_False by done.
  destruct (update_goal_progress _ _) as [[]|[]]; [by destruct s..|].
  destruct (int_of_float total_duration) as [[]|?]; by destruct s.
Qed.

(** X10. An uninterrupted countdown: with one callback armed and [r]
    seconds left, [r] ticks bring [remaining_time] to 0 and change
    nothing else, the log least of all; the tick after them writes the
    session, one row whose minutes are what the duration field holds at
    that moment, whatever [logged_time] says the pauses have logged
    already, and leaves no callback armed. *)
Theorem countdown_logs_at_zero (inputs : list (Z * string * string)) (now : Z)
    (duration_var subject_var : string) (total_duration : num) (s : app) :
  timer_running s = true → pending s = 1 →
  Z.of_nat (length inputs) = remaining_time s →
  float_of_str duration_var = Some total_duration → subject_var ≠ "" →
  ticks inputs s = Some (with_remaining_time 0 s)
  ∧ ∃ s', ticks (inputs ++ [(now, duration_var, subject_var)]) s = Some s'
      ∧ log_file s' =
        Some (CSVLogger.log now subject_var total_duration (log_file s))
      ∧ remaining_time s' = 0%Z ∧ pending s' = 0.
Proof.
  intros Hrun Hp Hlen Hfloat Hsubject.
  assert (Hticks : ticks inputs s = Some (with_remaining_time 0 s)).
  { rewrite (running_ticks inputs s 0) by (done || lia). do 2 f_equal. lia. }
  split; [done|].
  rewrite ticks_app, Hticks. cbn [mbind option_bind ticks]. unfold tick.
  assert (Hp0 : pending (with_remaining_time 0 s) = 1) by by destruct s.
  rewrite Hp0.
  destruct (update_timer_completes now duration_var subject_var total_duration
              (with_pending 0 (with_remaining_time 0 s)))
    as (Hlog & Hleft & Hpending); [by destruct s|by destruct s|done|done|].
  destruct (update_timer _ _ _ _) as [s' e]. exists s'. split; [done|].
  cbn [fst] in *. rewrite Hlog, Hleft, Hpending. by destruct s.
Qed.

(** X11. Start on a paused countdown does not look at the callbacks still
    armed: it arms one more, and while the countdown runs every tick
    arms the one it used up again, so their number stays one above what
    it was.  With the callback of the last tick before the pause still
    armed - pause and start within a second - two callbacks run from
    then on, each taking a second off. *)
Theorem resume_arms_one_more_callback (now : Z) (duration_var subject_var : string)
    (inputs : list (Z * string * string)) (s : app) :
  timer_running s = false → (0 < remaining_time s)%Z →
  (Z.of_nat (length inputs) < remaining_time s)%Z →
  let s1 := (toggle_timer now duration_var subject_var s).1 in
  timer_running s1 = true ∧ pending s1 = S (pending s)
  ∧ remaining_time s1 = (remaining_time s - 1)%Z ∧ log_file s1 = log_file s
  ∧ ∃ s2, ticks inputs s1 = Some s2 ∧ pending s2 = S (pending s)
      ∧ remaining_time s2 = (remaining_time s1 - Z.of_nat (length inputs))%Z.
Proof.
  intros Hstopped Hleft Hlen. cbv zeta.
  assert (Hstart : toggle_timer now duration_var subject_var s =
            (with_pending (S (pending s))
               (with_remaining_time (remaining_time s - 1)
                  (with_timer_running true s)), None)).
  { unfold toggle_timer, update_timer. rewrite Hstopped. cbn [negb].
    rewrite decide_False by lia.
    destruct s. cbn in *. by rewrite decide_False by lia. }
  rewrite Hstart. cbn [fst].
  set (s1 := with_pending _ _).
  assert (timer_running s1 = true ∧ pending s1 = S (pending s)
          ∧ remaining_time s1 = (remaining_time s - 1)%Z ∧ log_file s1 = log_file s)
    as (Hrun1 & Hp1 & Hr1 & Hl1) by by destruct s.
  repeat split; try done.
  eexists. split; [apply (running_ticks inputs s1 (pending s)); (done || lia)|].
  split; [|done]. by destruct s1.
Qed.

(** A stopped timer with no time left lets its callbacks run out. *)
Lemma stopped_ticks (inputs : list (Z * string * string)) (s : app) :
  timer_running s = false → (remaining_time s ≤ 0)%Z →
  (length inputs ≤ pending s)%nat →
  ticks inputs s = Some (with_pending (pending s - length inputs) s).
Proof.
  revert s. induction inputs as [|[[now dv] sv] inputs IH]; intros s Hrun Hr Hlen.
  { cbn [length ticks]. rewrite Nat.sub_0_r. by destruct s. }
  cbn [length] in Hlen. cbn [ticks]. unfold tick.
  destruct (pending s) as [|n] eqn:Hp; [lia|].
  assert (Hstep : update_timer now dv sv (with_pending n s) = (with_pending n s, None)).
  { unfold update_timer. destruct s as [c g run r l p lf cf d]. cbn in *. subst.
    by rewrite decide_True by lia. }
  rewrite Hstep, IH; [|by destruct s|by destruct s|destruct s; cbn in *; lia].
  assert (Hset : ∀ a b, with_pending a (with_pending b s) = with_pending a s)
    by by destruct s.
  assert (Hget : ∀ b, pending (with_pending b s) = b) by by destruct s.
  by rewrite Hset, Hget.
Qed.

(** X12. Reset discards the session: nothing is written by
    [reset_timer], and the callbacks still armed run out one by one
    without logging anything or changing anything else. *)
Theorem reset_timer_disarms (inputs : list (Z * string * string)) (s : app) :
  (length inputs ≤ pending s)%nat →
  log_file (reset_timer s) = log_file s
  ∧ ticks inputs (reset_timer s) =
    Some (with_pending (pending s - length inputs) (reset_timer s)).
Proof.
  intros Hlen. split; [by destruct s|].
  rewrite stopped_ticks; by destruct s.
Qed.

(** X13. Start with a duration of less than a second - 0, 0.01, a
    negative number - counts nothing down: the session is logged at once
    with the minutes of the duration field, negative ones included, and
    no callback is armed. *)
Theorem start_without_seconds_logs_at_once (now : Z) (duration_var subject_var : string)
    (mins : num) (t : Z) (s : app) :
  timer_running s = false → (remaining_time s ≤ 0)%Z →
  float_of_str duration_var = Some mins → subject_var ≠ "" →
  seconds_of_minutes mins = inr t → (t ≤ 0)%Z →
  let s' := (toggle_timer now duration_var subject_var s).1 in
  log_file s' = Some (CSVLogger.log now subject_var mins (log_file s))
  ∧ pending s' = pending s ∧ remaining_time s' = t.
Proof.
  intros Hstopped Hr Hfloat Hsubject Hseconds Ht. cbv zeta.
  unfold toggle_timer. rewrite Hstopped. cbn [negb].
  rewrite decide_True by done. rewrite Hfloat, decide_False by done.
  rewrite Hseconds.
  destruct (update_timer_completes now duration_var subject_var mins
              (with_timer_running true (with_logged_time 0 (with_remaining_time t s))))
    as (Hlog & Hleft & Hpending); [by destruct s|by destruct s|done|done|].
  rewrite Hlog, Hleft, Hpending. by destruct s.
Qed.



End Countdown.


(** ** The time-of-day chart *)

Section TimeOfDayChart.
Context `{PyFloat}.

(** X15. The loop of [plot_time_of_day_productivity] over the rows, for
    one date of [data]: when every row has a date and every row of that
    date has a timestamp that starts with an integer and minutes that
    [float] accepts, each session of the date is counted once, whole, in
    the slot of the hour it started in, in file order - however long it
    lasted. *)
Theorem read_date_counts_whole_sessions (date : option string) (st : slots)
    (rows : list pyrow) :
  (∀ row, row ∈ rows → is_Some (row !! "date")) →
  (∀ row, row ∈ rows → row !! "date" = Some date → is_Some (slot_of_row row)) →
  read_date date st rows =
  foldl count_session st
    (omap slot_of_row (filter (λ row : pyrow, row !! "date" = Some date) rows)).
Proof.
  revert st. induction rows as [|row rows IH]; intros st Hdate Hslot; [reflexivity|].
  cbn [read_date]. rewrite filter_cons.
  destruct (Hdate row) as [d Hd]; [by left|]. rewrite Hd.
  assert (Hrest : ∀ st', read_date date st' rows =
            foldl count_session st'
              (omap slot_of_row (filter (λ row : pyrow, row !! "date" = Some date) rows))).
  { intros st'. apply IH; intros r Hr; [apply Hdate|apply Hslot]; by right. }
  destruct (decide (d = date)) as [->|Hne].
  - rewrite decide_True by done.
    destruct (Hslot row) as [session Hsession]; [by left|done|].
    cbn [omap list_omap]. rewrite Hsession. cbn [foldl]. apply Hrest.
  - rewrite decide_False by congruence. apply Hrest.
Qed.

(** X16. ... and a row of the date for which that fails ends the loop:
    the rows after it are not read for this date, the later sessions of
    the date are missing from the chart.  ([get_weekly_data] leaves out
    only the row itself when its minutes do not parse.) *)
Theorem read_date_stops_at_unreadable_row (date : option string) (st : slots)
    (before after : list pyrow) (bad : pyrow) :
  bad !! "date" = Some date → slot_of_row bad = None →
  read_date date st (before ++ bad :: after) = read_date date st before.
Proof.
  intros Hdate Hbad. revert st.
  induction before as [|row before IH]; intros st.
  { cbn [app read_date]. by rewrite Hdate, decide_True, Hbad. }
  cbn [app read_date]. destruct (row !! "date") as [d|]; [|reflexivity].
  destruct (decide (d = date)); [|apply IH].
  destruct (slot_of_row row); [apply IH|reflexivity].
Qed.

End TimeOfDayChart.


(** ** The hourly chart, whatever the rows hold *)

Section HourlyChartRuns.
Context `{PyTime} `{!PyDuration}.

Lemma for_rows_hourly_runs (dates : list (option string)) (rows : list pyrow)
    (hourly_by_day : chart) :
  (∀ row, row ∈ rows → is_Some (row !! "date")) →
  ∃ hourly_by_day',
    for_rows (hourly_row dates) hourly_by_day rows = inr hourly_by_day'
    ∧ (∀ date, is_Some (hourly_by_day' !! date) ↔ is_Some (hourly_by_day !! date))
    ∧ (full_days hourly_by_day → full_days hourly_by_day').
Proof.
  revert hourly_by_day. induction rows as [|row rows IH]; intros hbd Hdate.
  { by exists hbd. }
  cbn [for_rows]. rewrite hourly_row_cases.
  destruct (Hdate row) as [d ->]; [by left|]. cbn [mbind result_bind].
  set (hbd1 := if decide (d ∈ dates) then _ else _).
  destruct (IH hbd1) as (hbd' & -> & Hkeys & Hfull).
  { intros; apply Hdate. by right. }
  assert (Hstep : (∀ date, is_Some (hbd1 !! date) ↔ is_Some (hbd !! date))
                  ∧ (full_days hbd → full_days hbd1)).
  { subst hbd1. destruct (decide (d ∈ dates)); [|done].
    destruct (session_of_row row) as [?|[start_time end_time]]; [done|]. split.
    - intros date. destruct (decide (d = date)) as [->|].
      + rewrite lookup_alter_eq. by rewrite fmap_is_Some.
      + by rewrite lookup_alter_ne.
    - intros Hhbd date buckets. destruct (decide (d = date)) as [->|].
      + rewrite lookup_alter_eq.
        destruct (hbd !! date) as [b|] eqn:Hb; [|done]. intros [= <-].
        destruct (Hhbd date b Hb). rewrite credit_slices_length.
        split; [done|]. by apply credit_slices_nonneg.
      + rewrite lookup_alter_ne by done. apply Hhbd. }
  exists hbd'. split; [done|]. split.
  - intros date. rewrite Hkeys. apply Hstep.
  - intros Hhbd. apply Hfull. by apply Hstep.
Qed.

(** X17. The hourly chart is always produced when the date keys of
    [data] can be sorted and the header of the log has a date column:
    no row, whatever it holds, makes the function fail (a record short
    of its fields is skipped here).  The chart has exactly the last seven
    sorted dates, each with 24 buckets, none negative, and 24 averages. *)
Theorem hourly_chart_is_produced (data : table) (fieldnames : record)
    (records : list record) :
  ¬ (None ∈ (map_to_list data).*1 ∧ (2 ≤ length (map_to_list data).*1)%nat) →
  "date" ∈ fieldnames →
  let dates := last_7 (merge_sort key_le (map_to_list data).*1) in
  ∃ hourly_by_day totals,
    plot_hourly_productivity_multiline data (Some (fieldnames :: records))
      = inr (hourly_by_day, totals)
    ∧ (∀ date, is_Some (hourly_by_day !! date) ↔ date ∈ dates)
    ∧ full_days hourly_by_day
    ∧ length totals = 24.
Proof.
  intros Hsortable Hheader dates.
  unfold plot_hourly_productivity_multiline, sorted.
  rewrite decide_False by done.
  cbn [mbind result_bind mret result_ret from_option]. fold dates.
  set (initial := list_to_map ((λ date, (date, replicate 24 zero)) <$> dates) : chart).
  destruct (for_rows_hourly_runs dates (DictReader (fieldnames :: records)) initial)
    as (hbd & -> & Hkeys & Hfull).
  { intros row Hrow. by apply (DictReader_is_Some fieldnames records). }
  exists hbd, (hourly_totals dates hbd). split; [done|]. split; [|split].
  - intros date. rewrite Hkeys.
    destruct (initial !! date) as [b|] eqn:Hb.
    + apply elem_of_list_to_map_2, list_elem_of_fmap in Hb as (d & [= -> ->] & Hd).
      split; [done|]. by eexists.
    + apply not_elem_of_list_to_map_2 in Hb.
      rewrite <- list_fmap_compose, list_fmap_id in Hb.
      split; [by intros [? [=]]|done].
  - apply Hfull. intros date buckets Hb. subst initial.
    apply elem_of_list_to_map_2, list_elem_of_fmap in Hb as (d & [= -> ->] & _).
    split; [done|]. apply (Forall_replicate nonneg 24 zero). apply nonneg_zero.
  - unfold hourly_totals. by rewrite length_fmap, length_seq.
Qed.

End HourlyChartRuns.


(** ** The charts drawn from [data] *)

Section ItemsLemmas.
Context {A : Type}.
Implicit Types (d : items A) (k : option string) (v : A).

Lemma items_get_set d k k' v :
  items_get (items_set d k v) k' = if decide (k = k') then Some v else items_get d k'.
Proof.
  induction d as [|[k0 v0] d IH]; cbn [items_set items_get].
  - by destruct (decide (k = k')).
  - destruct (decide (k0 = k)) as [->|Hk0]; cbn [items_get].
    + by destruct (decide (k = k')).
    + rewrite IH. destruct (decide (k0 = k')) as [->|]; [|done].
      by rewrite decide_False by congruence.
Qed.

Lemma items_set_keys d k v :
  (items_set d k v).*1 = if decide (k ∈ d.*1) then d.*1 else (d.*1 ++ [k])%list.
Proof.
  induction d as [|[k0 v0] d IH]; cbn [items_set fmap list_fmap fst].
  - rewrite decide_False; [done|]. apply not_elem_of_nil.
  - destruct (decide (k0 = k)) as [->|Hk0]; cbn [fmap list_fmap fst].
    + rewrite decide_True; [done|]. left.
    + change (list_fmap _ _ fst ?l) with (l.*1). rewrite IH.
      destruct (decide (k ∈ d.*1)).
      * rewrite decide_True; [done|]. by right.
      * rewrite decide_False; [done|]. rewrite elem_of_cons. intros [?|?]; congruence.
Qed.

Lemma items_set_NoDup d k v : NoDup d.*1 → NoDup (items_set d k v).*1.
Proof.
  intros Hd. rewrite items_set_keys. destruct (decide (k ∈ d.*1)); [done|].
  apply NoDup_app. split; [done|]. split; [|apply NoDup_singleton].
  intros x Hx ->%list_elem_of_singleton. done.
Qed.

Lemma items_get_None d k : items_get d k = None ↔ k ∉ d.*1.
Proof.
  induction d as [|[k0 v0] d IH]; cbn [items_get fmap list_fmap fst].
  - split; [intros _; apply not_elem_of_nil|done].
  - change (list_fmap _ _ fst ?l) with (l.*1). rewrite not_elem_of_cons.
    destruct (decide (k0 = k)) as [->|]; [split; [done|tauto]|].
    rewrite IH. split; [split; [congruence|done]|tauto].
Qed.

Lemma items_get_lookup d k v i :
  NoDup d.*1 → d !! i = Some (k, v) → items_get d k = Some v.
Proof.
  revert i. induction d as [|[k0 v0] d IH]; intros i Hd Hi; [done|].
  cbn [fmap list_fmap fst] in Hd. apply NoDup_cons in Hd as [Hk0 Hd].
  cbn [items_get]. destruct i as [|i].
  - injection Hi as -> ->. by rewrite decide_True.
  - cbn in Hi. rewrite decide_False; [by apply (IH i)|]. intros ->.
    apply Hk0. apply list_elem_of_fmap. exists (k, v).
    split; [done|]. by eapply list_elem_of_lookup_2.
Qed.

Lemma items_get_list_to_map d k :
  (list_to_map d : gmap (option string) A) !! k = items_get d k.
Proof.
  induction d as [|[k0 v0] d IH]; [apply lookup_empty|].
  cbn [list_to_map foldr uncurry items_get].
  destruct (decide (k0 = k)) as [->|]; [apply lookup_insert_eq|].
  by rewrite lookup_insert_ne.
Qed.

Lemma items_set_list_to_map d k v :
  (list_to_map (items_set d k v) : gmap (option string) A) = <[k := v]> (list_to_map d).
Proof.
  induction d as [|[k0 v0] d IH]; [done|].
  cbn [items_set]. destruct (decide (k0 = k)) as [->|].
  - cbn [list_to_map foldr uncurry]. by rewrite insert_insert_eq.
  - cbn [list_to_map foldr uncurry]. fold (list_to_map (M := gmap (option string) A) d).
    fold (list_to_map (M := gmap (option string) A) (items_set d k v)).
    rewrite IH. by apply insert_insert_ne.
Qed.

Lemma filter_drop_keys (d : items A) (n : nat) :
  NoDup d.*1 → filter (λ kv, kv.1 ∈ drop n d.*1) d = drop n d.
Proof.
  revert n. induction d as [|[k0 v0] d IH]; intros n Hd; [by destruct n|].
  cbn [fmap list_fmap fst] in Hd. apply NoDup_cons in Hd as [Hk0 Hd].
  destruct n as [|n].
  - cbn [drop]. clear. generalize ((k0, v0) :: d). intros l.
    assert (Hsub : ∀ l', l' ⊆ l → filter (λ kv, kv.1 ∈ l.*1) l' = l').
    { induction l' as [|x l' IH]; intros Hl'; [done|].
      rewrite filter_cons_True.
      - f_equal. apply IH. intros y Hy. apply Hl'. by right.
      - apply list_elem_of_fmap. exists x. split; [done|]. apply Hl'. left. }
    by apply Hsub.
  - cbn [drop fmap list_fmap fst]. change (list_fmap _ _ fst d) with (d.*1).
    rewrite filter_cons_False; [by apply IH|].
    cbn [fst]. intros Hin. apply Hk0.
    eapply sublist_subseteq; [apply sublist_drop|done].
Qed.

Lemma foldl_ext_in {B C : Type} (f g : C → B → C) (l : list B) (c : C) :
  (∀ c x, x ∈ l → f c x = g c x) → foldl f c l = foldl g c l.
Proof.
  revert c. induction l as [|x l IH]; intros c Hfg; [done|].
  cbn [foldl]. rewrite Hfg by left. apply IH. intros; apply Hfg. by right.
Qed.

End ItemsLemmas.

Section ChartProperties.
Context `{PyFloat}.

(** What the loop of [subject_totals] adds to the totals it starts
    from. *)
Lemma subject_totals_from (data : items (items num)) (totals : items num)
    (subject : option string) :
  let totals' := foldl (λ subject_totals day, foldl add_subject subject_totals day.2)
                       totals data in
  (NoDup totals.*1 → NoDup totals'.*1)
  ∧ items_get totals' subject =
    match minutes_of_subject subject data with
    | [] => items_get totals subject
    | l => Some (foldl fadd (default zero (items_get totals subject)) l)
    end.
Proof.
  cbv zeta. revert totals. induction data as [|[date subjects] data IH]; intros totals.
  { done. }
  cbn [foldl snd]. unfold minutes_of_subject. cbn [mbind list_bind].
  fold (minutes_of_subject subject data).
  assert (Hday : ∀ totals,
            (NoDup totals.*1 → NoDup (foldl add_subject totals subjects).*1)
            ∧ items_get (foldl add_subject totals subjects) subject =
              match ('(s, minutes) ← subjects;
                     if decide (s = subject) then [minutes] else []) with
              | [] => items_get totals subject
              | l => Some (foldl fadd (default zero (items_get totals subject)) l)
              end).
  { clear. induction subjects as [|[s minutes] subjects IH]; intros totals; [done|].
    cbn [foldl mbind list_bind].
    destruct (IH (add_subject totals (s, minutes))) as [Hnodup ->].
    split; [intros Hd; apply Hnodup; by apply items_set_NoDup|].
    unfold add_subject. rewrite items_get_set.
    destruct (decide (s = subject)) as [->|Hs]; cbn [app]; [|done].
    cbn [default foldl]. by destruct (_ ≫= _). }
  destruct (IH (foldl add_subject totals subjects)) as [Hnodup ->].
  destruct (Hday totals) as [Hnodup1 ->].
  split; [intros Hd; by apply Hnodup, Hnodup1|].
  destruct (subjects ≫= _) as [|m ms] eqn:Hms; cbn [app]; [done|].
  destruct (minutes_of_subject subject data) as [|m' ms'] eqn:Hrest.
  - by rewrite app_nil_r.
  - cbn [default]. by rewrite foldl_app.
Qed.

(** The keys of [subject_totals] come in the order in which the loop
    first meets them. *)
Lemma subject_totals_keys (data : items (items num)) (totals : items num) :
  (foldl (λ subject_totals day, foldl add_subject subject_totals day.2) totals data).*1
  = foldl (λ seen key, if decide (key ∈ seen) then seen else seen ++ [key])%list
          totals.*1 (subjects_of data).
Proof.
  revert totals. induction data as [|[date subjects] data IH]; intros totals; [done|].
  cbn [foldl snd]. unfold subjects_of. rewrite bind_cons, foldl_app. cbn [snd].
  fold (subjects_of data). rewrite IH. f_equal. clear.
  revert totals. induction subjects as [|[subject minutes] subjects IH]; intros totals.
  { done. }
  cbn [foldl fmap list_fmap fst]. change (list_fmap _ _ fst ?l) with (l.*1).
  rewrite IH. f_equal. unfold add_subject. apply items_set_keys.
Qed.

(** X18. The pie of [plot_subject_distribution] and the bars of
    [plot_subject_comparison] cover every date of [data], not the last
    seven: the labels are the subjects of [data], each once, in the order
    in which they first appear, and the value beside a label is the sum
    of that subject's minutes over all dates, added from 0 in the order
    of the dates.  The error dialog is shown exactly when [data] holds no
    minutes at all. *)
Theorem subject_totals_cover_all_dates (data : items (items num)) :
  plot_subject_comparison data
    = (λ vl, (vl.2, vl.1)) <$> plot_subject_distribution data
  ∧ (plot_subject_distribution data = None ↔
     ∀ subject, minutes_of_subject subject data = [])
  ∧ ∀ values labels, plot_subject_distribution data = Some (values, labels) →
      NoDup labels ∧ labels = first_appearances (subjects_of data)
      ∧ length values = length labels
      ∧ (∀ subject, subject ∈ labels ↔ minutes_of_subject subject data ≠ [])
      ∧ ∀ i subject, labels !! i = Some subject →
          values !! i = Some (total_of (minutes_of_subject subject data)).
Proof.
  unfold plot_subject_comparison, plot_subject_distribution. cbv zeta.
  assert (Hget : ∀ subject, items_get (subject_totals data) subject =
            match minutes_of_subject subject data with
            | [] => None
            | l => Some (total_of l)
            end).
  { intros subject. apply (subject_totals_from data [] subject). }
  assert (Hnodup : NoDup (subject_totals data).*1).
  { apply (subject_totals_from data [] None). apply NoDup_nil_2. }
  assert (Hin : ∀ subject, subject ∈ (subject_totals data).*1 ↔
                           minutes_of_subject subject data ≠ []).
  { intros subject. destruct (decide (subject ∈ (subject_totals data).*1)) as [Hs|Hs].
    - split; [|done]. intros _ Hnone.
      apply (proj1 (items_get_None (subject_totals data) subject)); [|done].
      by rewrite Hget, Hnone.
    - split; [done|]. intros Hsome. apply items_get_None in Hs.
      rewrite Hget in Hs. by destruct (minutes_of_subject subject data). }
  split; [by destruct (decide _)|]. split.
  - destruct (decide (subject_totals data = [])) as [Hnil|Hnil].
    + split; [|done]. intros _ subject.
      destruct (minutes_of_subject subject data) eqn:Hm; [done|].
      assert (subject ∈ (subject_totals data).*1) as Hs by (apply Hin; by rewrite Hm).
      rewrite Hnil in Hs. by apply elem_of_nil in Hs.
    + split; [done|]. intros Hnone. exfalso.
      destruct (subject_totals data) as [|[subject v] rest] eqn:Htotals; [done|].
      apply (proj1 (Hin subject)); [left|apply Hnone].
  - intros values labels. destruct (decide _); [done|]. intros [= <- <-].
    split; [done|]. split; [apply (subject_totals_keys data [])|].
    split; [by rewrite !length_fmap|]. split; [done|].
    intros i subject Hi. rewrite list_lookup_fmap in Hi. rewrite list_lookup_fmap.
    destruct (subject_totals data !! i) as [[s v]|] eqn:Hiv; [|done].
    injection Hi as ->. cbn.
    pose proof (items_get_lookup _ _ _ _ Hnodup Hiv) as Hv. rewrite Hget in Hv.
    destruct (minutes_of_subject subject data); [done|]. by injection Hv as ->.
Qed.

(** The dict in key order stands for the mapping that
    [CSVLogger.get_weekly_data] was given as: keeping the order changes
    nothing else. *)
Lemma to_table_lookup (data : items (items num)) (date : option string) :
  to_table data !! date = list_to_map <$> items_get data date.
Proof.
  unfold to_table.
  induction data as [|[d day] data IH]; [apply lookup_empty|].
  cbn [fmap list_fmap list_to_map foldr uncurry items_get fst snd].
  destruct (decide (d = date)) as [->|]; [apply lookup_insert_eq|].
  by rewrite lookup_insert_ne.
Qed.

Lemma to_table_set (data : items (items num)) (date : option string)
    (day : items num) :
  to_table (items_set data date day) = <[date := list_to_map day]> (to_table data).
Proof.
  apply map_eq. intros d. rewrite to_table_lookup, items_get_set.
  destruct (decide (date = d)) as [->|].
  - by rewrite lookup_insert_eq.
  - by rewrite lookup_insert_ne, to_table_lookup.
Qed.

Lemma to_table_add_minutes (data : items (items num)) (date subject : option string)
    (minutes : num) :
  to_table (add_minutes_in_order data date subject minutes)
  = CSVLogger.add_minutes (to_table data) date subject minutes.
Proof.
  unfold add_minutes_in_order, CSVLogger.add_minutes. cbv zeta.
  rewrite to_table_set, items_set_list_to_map, to_table_lookup.
  destruct (items_get data date) as [day|];
    cbn [fmap option_fmap option_map default from_option id].
  - by rewrite items_get_list_to_map.
  - by rewrite lookup_empty.
Qed.

Lemma get_weekly_data_in_order_table (file : option (list record)) :
  to_table (get_weekly_data_in_order file) = CSVLogger.get_weekly_data file.
Proof.
  unfold get_weekly_data_in_order, CSVLogger.get_weekly_data.
  destruct file as [f|]; [|done].
  assert (Hrows : ∀ rows data,
            match for_rows weekly_row_in_order data rows with
            | inl e => for_rows CSVLogger.weekly_row (to_table data) rows = inl e
            | inr data' =>
                for_rows CSVLogger.weekly_row (to_table data) rows = inr (to_table data')
            end).
  { induction rows as [|row rows IH]; intros data; [done|].
    cbn [for_rows].
    assert (Hrow : match weekly_row_in_order data row with
                   | inl e => CSVLogger.weekly_row (to_table data) row = inl e
                   | inr data' =>
                       CSVLogger.weekly_row (to_table data) row = inr (to_table data')
                   end).
    { unfold weekly_row_in_order, CSVLogger.weekly_row, getitem.
      destruct (row !! "date") as [date|]; [|done].
      destruct (row !! "subject") as [subject|]; [|done].
      destruct (row !! "minutes") as [v|]; [|done].
      cbn [mbind result_bind mret result_ret].
      destruct (CSVLogger.float v) as [[]|minutes]; try done.
      cbn. by rewrite to_table_add_minutes. }
    destruct (weekly_row_in_order data row) as [e|data1]; rewrite Hrow; [done|].
    apply IH. }
  specialize (Hrows (DictReader f) []).
  change (to_table []) with (∅ : table) in Hrows.
  destruct (for_rows weekly_row_in_order [] (DictReader f)); by rewrite Hrows.
Qed.

(** X19. [plot_weekly_trend] takes the dates from the sorted keys and
    the totals from [data] in the order of its keys, and [plt.plot] pairs
    them by position.  When the keys of [data] are in the order that
    [sorted] gives them - the log has its dates in ascending order of
    first appearance - every point pairs a date with the total of that
    date: the points are the last seven entries of [data], each with the
    sum of its minutes. *)
Theorem weekly_trend_pairs_dates_with_totals (data : items (items num)) :
  NoDup data.*1 → sorted data.*1 = inr data.*1 → data ≠ [] →
  ∃ dates daily_totals,
    plot_weekly_trend data = inr (Some (dates, daily_totals))
    ∧ zip dates daily_totals = (λ day, (day.1, day_total day.2)) <$> last_7 data.
Proof.
  intros Hnodup Hsorted Hdata. unfold plot_weekly_trend. rewrite Hsorted.
  cbn [mbind result_bind]. unfold last_7.
  rewrite length_fmap. set (n := length data - 7).
  assert (Hn : n < length data).
  { subst n. destruct data; [done|]. cbn [length]. lia. }
  rewrite decide_False.
  2:{ intros Hnil. apply (f_equal length) in Hnil.
      rewrite length_drop, length_fmap in Hnil. cbn in Hnil. lia. }
  eexists _, _. split; [done|].
  assert (Hfilter : filter (λ '(date, subjects), date ∈ drop n data.*1) data
                    = drop n data).
  { rewrite <- (filter_drop_keys data n Hnodup).
    apply list_filter_iff. by intros [date subjects]. }
  rewrite Hfilter, <- fmap_drop. generalize (drop n data). clear.
  induction l as [|[date subjects] l IH]; [done|].
  cbn [fmap list_fmap zip zip_with fst snd]. f_equal. apply IH.
Qed.

(** X20. [plot_graph] draws the subjects of the earliest charted date
    only.  Minutes of another subject, on another date that [data] has,
    change neither the bars nor the day totals: the chart is the same
    with and without them. *)
Theorem plot_graph_leaves_out_other_subjects (data : items (items num))
    (date subject : option string) (minutes : num)
    (dates subjects : list (option string)) (bars : items (list num))
    (daily_totals : list num) :
  plot_graph data = inr (Some (dates, subjects, bars, daily_totals)) →
  date ∈ data.*1 → head dates ≠ Some date → subject ∉ subjects →
  plot_graph (add_minutes_in_order data date subject minutes) = plot_graph data.
Proof.
  intros Hrun Hdate Hfirst Hsubject. unfold plot_graph in *.
  set (data' := add_minutes_in_order data date subject minutes).
  assert (Hkeys : data'.*1 = data.*1).
  { subst data'. unfold add_minutes_in_order. cbv zeta.
    by rewrite items_set_keys, decide_True. }
  destruct (decide (data = [])) as [|Hdata]; [done|].
  rewrite decide_False.
  2:{ intros Hnil. apply Hdata. apply (f_equal (fmap fst)) in Hnil.
      rewrite Hkeys in Hnil. by destruct data. }
  rewrite Hkeys. destruct (sorted data.*1) as [e|keys]; [done|].
  cbn [mbind result_bind] in *.
  destruct (last_7 keys) as [|first rest]; [done|].
  injection Hrun as Hdates Hsubjects _ _.
  rewrite <- Hdates in Hfirst. cbn [head] in Hfirst.
  assert (Hget : ∀ d, items_get data' d =
            if decide (date = d)
            then Some (items_set (default [] (items_get data date)) subject
                         (fadd (default zero
                                  (items_get (default [] (items_get data date)) subject))
                               minutes))
            else items_get data d).
  { intros d. subst data'. unfold add_minutes_in_order. cbv zeta.
    apply items_get_set. }
  assert (Hday : items_get data' first = items_get data first).
  { rewrite Hget. rewrite decide_False; [done|]. intros ->. by apply Hfirst. }
  rewrite Hday, Hsubjects.
  assert (Hmins : ∀ d subj, subj ∈ subjects →
            default zero (items_get (default [] (items_get data' d)) subj)
            = default zero (items_get (default [] (items_get data d)) subj)).
  { intros d subj Hsubj. rewrite Hget. destruct (decide (date = d)) as [<-|]; [|done].
    cbn [default from_option id]. rewrite items_get_set.
    rewrite decide_False; [done|]. intros <-. apply Hsubject. by rewrite <- Hsubjects. }
  do 3 f_equal; [f_equal|].
  - apply Forall_fmap_ext_1, Forall_forall. intros subj Hsubj. f_equal.
    apply Forall_fmap_ext_1, Forall_forall. intros d _. by apply Hmins.
  - apply Forall_fmap_ext_1, Forall_forall. intros d _.
    apply foldl_ext_in. intros c subj Hsubj. f_equal. by apply Hmins.
Qed.

End ChartProperties.

(** * Worked examples *)

Import Exact Samples.

Example morning_parsed : strptime "2024-03-05 10:30:00" = Some morning.
Proof. reflexivity. Qed.

Example morning_printed :
  str_date morning = "2024-03-05" ∧ strftime_HMS morning = "10:30:00".
Proof. split; reflexivity. Qed.

(** A session of 12.347 minutes is logged at 10:30 into a file that has
    only its header. *)
Example log_after_header :
  CSVLogger.log morning "Math" (12347 # 1000)%Q (Some [header]) =
  [header; ["2024-03-05"; "10:30:00"; "Math"; "12.35"]].
Proof. reflexivity. Qed.

(** A config file that sets the goal twice and nothing else. *)
Example load_config_goal_only :
  ConfigManager.load_config ConfigManager.defaults
    (Some (inr (PDict [("daily_goal", PInt 300); ("daily_goal", PInt 480)]))) =
  ConfigManager.Config ConfigManager.DEFAULT_SUBJECTS (PInt 480) (PStr "system").
Proof. reflexivity. Qed.

(** Today's two sessions are summed; the short record of the day before
    is not looked at. *)
Lemma get_today_minutes_two_today :
  (∀ row, row ∈ DictReader two_today →
     row !! "date" = Some (Some (str_date morning)) → is_Some (minutes_of_row row))
  ∧ CSVLogger.get_today_minutes morning (Some two_today) = (85 # 2)%Q.
Proof.
  assert (Hwf : ∀ row, row ∈ DictReader two_today →
            row !! "date" = Some (Some (str_date morning)) →
            is_Some (minutes_of_row row)).
  { intros row Hrow Hdate.
    repeat (apply elem_of_cons in Hrow as [->|Hrow]);
      [vm_compute in Hdate; discriminate Hdate| | |by apply elem_of_nil in Hrow];
      eexists; vm_compute; reflexivity. }
  split; [exact Hwf|].
  rewrite (proj1 (get_today_minutes_sums_today_rows morning two_today Hwf)).
  reflexivity.
Defined.

(** C4.  The short record is not skipped: its missing minutes are [None],
    [float(None)] raises [TypeError], the inner handler lets it pass and
    the outer one returns the default, so the 30 minutes of the
    well-formed row are lost in all three reads. *)
Theorem short_record_aborts_reads :
  today_minutes "2024-03-05" (DictReader short_record) = [30%Q]
  ∧ minutes_for (Some "2024-03-05") (Some "Math") (DictReader short_record) = [30%Q]
  ∧ CSVLogger.get_today_minutes morning (Some short_record) = 0%Q
  ∧ CSVLogger.get_weekly_data (Some short_record) = ∅
  ∧ CSVLogger.get_all_data (Some short_record) = ∅.
Proof. repeat split; reflexivity. Qed.

Example seven_largest_of_eight :
  seven_largest_dates eight_days =
  Some <$> ["2024-01-02"; "2024-01-03"; "2024-01-04"; "2024-01-05";
            "2024-01-06"; "2024-01-07"; "2024-01-08"].
Proof. reflexivity. Qed.

(** C2 does not hold as stated: with eight dates in the log the earliest
    one is a key of the result although it is not among the seven
    largest. *)
Lemma get_weekly_data_keeps_eighth_date :
  CSVLogger.get_weekly_data (Some eight_days) !! Some "2024-01-01"
    = Some {[ Some "Math" := 10%Q ]}
  ∧ (Some "2024-01-01" ∉ seven_largest_dates eight_days)
  ∧ size (CSVLogger.get_weekly_data (Some eight_days)) = 8.
Proof.
  split; [reflexivity|]. split; [|reflexivity].
  rewrite seven_largest_of_eight. intros Hin.
  repeat (apply elem_of_cons in Hin as [[=]|Hin]). by apply elem_of_nil in Hin.
Qed.

(** All eight dates are keys, the earliest with its 10 minutes. *)
Lemma get_weekly_data_eight_days :
  (∀ row, row ∈ rows_of (Some eight_days) → ¬ short_of_minutes row)
  ∧ is_Some (CSVLogger.get_weekly_data (Some eight_days) !! Some "2024-01-01")
  ∧ entry (CSVLogger.get_weekly_data (Some eight_days)) (Some "2024-01-01") (Some "Math")
    = Some 10%Q.
Proof.
  assert (Hfull : ∀ row, row ∈ rows_of (Some eight_days) → ¬ short_of_minutes row).
  { intros row Hrow (_ & _ & Hshort).
    repeat (apply elem_of_cons in Hrow as [->|Hrow]); try discriminate Hshort.
    by apply elem_of_nil in Hrow. }
  split; [exact Hfull|].
  destruct (get_weekly_data_all_dates (Some eight_days)) as (_ & _ & Hall).
  apply (Hall Hfull (make_row header ["2024-01-01"; "18:00:00"; "Math"; "10"])
           (Some "2024-01-01") (Some "Math") 10%Q).
  - by left.
  - reflexivity.
Defined.

(** [toggle_timer] takes a negative duration: the countdown starts below
    0, the first call of [update_timer] finds it finished and logs the
    session with its -5 minutes. *)
Example negative_duration_is_logged :
  let s := (StudyTrackerApp.toggle_timer morning "-5" "Math" fresh).1 in
  StudyTrackerApp.remaining_time s = (-300)%Z
  ∧ StudyTrackerApp.log_file s = Some negative_session.
Proof. split; reflexivity. Qed.



(** A goal of 2000 minutes is stored as 1440. *)
Lemma set_goal_2000 :
  int_of_str "2000" = Some 2000%Z
  ∧ (1440 < 2000)%Z
  ∧ StudyTrackerApp.daily_goal (StudyTrackerApp.set_goal morning "2000" fresh).1
    = PInt 1440.
Proof.
  split; [reflexivity|]. split; [lia|].
  apply (proj1 (proj2 (proj2 (set_goal_positive_integer_capped morning "2000" fresh)))
           2000%Z); [reflexivity|lia].
Defined.

(** C8 does not hold as stated: the timer is paused, the callback armed
    before the pause comes due, and that tick takes a second off. *)
Lemma paused_timer_still_decrements :
  StudyTrackerApp.timer_running paused = false
  ∧ StudyTrackerApp.remaining_time paused = 58%Z
  ∧ StudyTrackerApp.pending paused = 1
  ∧ ∃ s', StudyTrackerApp.tick morning "1" "Math" paused = Some (s', None)
          ∧ StudyTrackerApp.timer_running s' = false
          ∧ StudyTrackerApp.remaining_time s' = 57%Z.
Proof. repeat split. eexists. repeat split. Qed.

(** The tick after the pause takes its second and arms nothing, so a
    second tick does not happen. *)
Lemma update_timer_tick_paused :
  (0 < StudyTrackerApp.remaining_time paused)%Z
  ∧ StudyTrackerApp.timer_running paused = false
  ∧ (∃ s', StudyTrackerApp.update_timer morning "1" "Math" paused = (s', None)
           ∧ StudyTrackerApp.remaining_time s' = 57%Z
           ∧ StudyTrackerApp.pending s' = 1)
  ∧ ticks [(morning, "1", "Math"); (morning, "1", "Math")] paused = None.
Proof.
  assert (Hpos : (0 < StudyTrackerApp.remaining_time paused)%Z) by reflexivity.
  assert (Hoff : StudyTrackerApp.timer_running paused = false) by reflexivity.
  destruct (update_timer_tick morning "1" "Math" paused) as (Hstep & Hticks & _).
  split; [exact Hpos|]. split; [exact Hoff|]. split.
  - destruct (Hstep Hpos) as (s' & Hs' & Hr & _ & Hp). exists s'.
    split; [exact Hs'|]. split; [exact Hr|exact Hp].
  - destruct (ticks _ paused) as [s'|] eqn:Hrun; [|reflexivity].
    destruct (Hticks Hoff _ _ Hrun) as (_ & Hp & _). discriminate Hp.
Defined.

(** ** The settings page, the log and the countdown at work *)

(** The theme button pressed three times on a fresh installation. *)
Lemma toggle_theme_twice_light :
  let s := StudyTrackerApp.toggle_theme fresh in
  ConfigManager.theme (StudyTrackerApp.config s) = PStr "light"
  ∧ StudyTrackerApp.config (StudyTrackerApp.toggle_theme (StudyTrackerApp.toggle_theme s))
    = StudyTrackerApp.config s.
Proof.
  split; [reflexivity|].
  apply (toggle_theme_twice (StudyTrackerApp.toggle_theme fresh)). left. reflexivity.
Defined.

Lemma save_subjects_two_lines :
  Forall (λ subject, one_line subject ∧ subject ≠ "" ∧ strip subject = subject)
         ["Math"; "Art 2"]
  ∧ join_lines ["Math"; "Art 2"] = String.append "Math" (String "010"%char "Art 2")
  ∧ ConfigManager.subjects
      (StudyTrackerApp.config
         (StudyTrackerApp.save_subjects (join_lines ["Math"; "Art 2"]) fresh))
    = PList [PStr "Math"; PStr "Art 2"].
Proof.
  assert (Hclean : Forall (λ subject, one_line subject ∧ subject ≠ ""
                                      ∧ strip subject = subject) ["Math"; "Art 2"]).
  { repeat apply Forall_cons_2; [| |apply Forall_nil_2];
      (split; [unfold one_line; apply (bool_decide_unpack _); vm_compute; exact I|];
       split; [discriminate|reflexivity]). }
  split; [exact Hclean|]. split; [reflexivity|].
  apply (save_subjects_of_joined ["Math"; "Art 2"] fresh); [discriminate|exact Hclean].
Defined.

Lemma log_then_get_today_minutes_two_today :
  (∀ row, row ∈ DictReader two_today →
     row !! "date" = Some (Some (str_date morning)) → row !! "minutes" ≠ Some None)
  ∧ CSVLogger.get_today_minutes morning
      (Some (CSVLogger.log morning "Math" (12347 # 1000)%Q (Some two_today)))
    = fadd (85 # 2)%Q (247 # 20)%Q.
Proof.
  assert (Hfull : ∀ row, row ∈ DictReader two_today →
            row !! "date" = Some (Some (str_date morning)) →
            row !! "minutes" ≠ Some None).
  { intros row Hrow Hdate.
    repeat (apply elem_of_cons in Hrow as [->|Hrow]);
      [vm_compute in Hdate; discriminate Hdate| | |by apply elem_of_nil in Hrow];
      vm_compute; discriminate. }
  split; [exact Hfull|].
  etransitivity;
    [exact (log_then_get_today_minutes (H:=exact_float) morning morning "Math"
              (12347 # 1000)%Q (247 # 20)%Q (tail two_today) eq_refl Hfull)|].
  reflexivity.
Defined.

Lemma log_then_get_weekly_data_eight_days :
  (∀ row, row ∈ DictReader eight_days → ¬ short_of_minutes row)
  ∧ entry (CSVLogger.get_weekly_data
             (Some (CSVLogger.log morning "Math" (12347 # 1000)%Q (Some eight_days))))
          (Some "2024-03-05") (Some "Math") = Some (fadd 0%Q (247 # 20)%Q)
  ∧ entry (CSVLogger.get_weekly_data
             (Some (CSVLogger.log morning "Math" (12347 # 1000)%Q (Some eight_days))))
          (Some "2024-01-01") (Some "Math") = Some 10%Q.
Proof.
  assert (Hfull : ∀ row, row ∈ DictReader eight_days → ¬ short_of_minutes row).
  { intros row Hrow (_ & _ & Hshort).
    repeat (apply elem_of_cons in Hrow as [->|Hrow]); try discriminate Hshort.
    by apply elem_of_nil in Hrow. }
  split; [exact Hfull|]. split.
  - etransitivity;
      [exact (log_then_get_weekly_data (H:=exact_float) morning "Math"
                (12347 # 1000)%Q (247 # 20)%Q (tail eight_days)
                (Some "2024-03-05") (Some "Math") eq_refl Hfull)|].
    reflexivity.
  - etransitivity;
      [exact (log_then_get_weekly_data (H:=exact_float) morning "Math"
                (12347 # 1000)%Q (247 # 20)%Q (tail eight_days)
                (Some "2024-01-01") (Some "Math") eq_refl Hfull)|].
    reflexivity.
Defined.

(** The log file is deleted while the application runs; two sessions
    are logged after that. *)
Lemma log_to_missing_file_two_sessions :
  let f := CSVLogger.log morning "Math" 20%Q
             (Some (CSVLogger.log morning "Math" 30%Q None)) in
  f = [["2024-03-05"; "10:30:00"; "Math"; "30.0"];
       ["2024-03-05"; "10:30:00"; "Math"; "20.0"]]
  ∧ CSVLogger.get_today_minutes morning (Some f) = zero
  ∧ CSVLogger.get_weekly_data (Some f) = ∅
  ∧ CSVLogger.get_all_data (Some f) = ∅.
Proof.
  split; [reflexivity|].
  apply (log_to_missing_file_is_not_read (H:=exact_float) morning morning "Math" 30%Q
           [["2024-03-05"; "10:30:00"; "Math"; "20.0"]]).
  apply (bool_decide_unpack _). vm_compute. exact I.
Defined.

Lemma countdown_of_one_minute :
  StudyTrackerApp.timer_running running = true
  ∧ StudyTrackerApp.pending running = 1
  ∧ StudyTrackerApp.remaining_time running = 59%Z
  ∧ ticks (replicate 59 one_second) running
    = Some (StudyTrackerApp.with_remaining_time 0 running)
  ∧ ∃ s', ticks (replicate 59 one_second ++ [one_second])%list running = Some s'
      ∧ StudyTrackerApp.log_file s' =
        Some [header; ["2024-03-05"; "10:30:00"; "Math"; "1.0"]]
      ∧ StudyTrackerApp.remaining_time s' = 0%Z ∧ StudyTrackerApp.pending s' = 0.
Proof.
  split; [reflexivity|]. split; [reflexivity|]. split; [reflexivity|].
  destruct (countdown_logs_at_zero (H:=exact_float) (replicate 59 one_second)
              morning "1" "Math" 1%Q running)
    as (Hticks & s' & Hlast & Hlog & Hleft & Hpending);
    [reflexivity|reflexivity|reflexivity|reflexivity|discriminate|].
  split; [exact Hticks|]. exists s'. split; [exact Hlast|].
  split; [rewrite Hlog; reflexivity|]. split; [exact Hleft|exact Hpending].
Defined.

(** Pause after two seconds, and Start again before the callback of the
    second tick has run. *)
Lemma resume_within_a_second :
  StudyTrackerApp.timer_running paused = false
  ∧ StudyTrackerApp.remaining_time paused = 58%Z
  ∧ StudyTrackerApp.pending paused = 1
  ∧ let s1 := (StudyTrackerApp.toggle_timer morning "1" "Math" paused).1 in
    StudyTrackerApp.pending s1 = 2
    ∧ ∃ s2, ticks (replicate 3 one_second) s1 = Some s2
        ∧ StudyTrackerApp.pending s2 = 2
        ∧ StudyTrackerApp.remaining_time s2 = 54%Z.
Proof.
  split; [reflexivity|]. split; [reflexivity|]. split; [reflexivity|].
  destruct (resume_arms_one_more_callback (H:=exact_float) morning "1" "Math"
              (replicate 3 one_second) paused)
    as (_ & Hpending & _ & _ & s2 & Hticks & Hpending2 & Hleft);
    [reflexivity|reflexivity|reflexivity|].
  split; [exact Hpending|]. exists s2. split; [exact Hticks|].
  split; [exact Hpending2|]. rewrite Hleft. reflexivity.
Defined.

(** Reset during a countdown: the callback armed by the last tick runs
    and does nothing. *)
Lemma reset_timer_while_running :
  StudyTrackerApp.pending running = 1
  ∧ ticks [one_second] (StudyTrackerApp.reset_timer running)
    = Some (StudyTrackerApp.with_pending 0 (StudyTrackerApp.reset_timer running))
  ∧ StudyTrackerApp.log_file (StudyTrackerApp.reset_timer running) = Some [header].
Proof.
  split; [reflexivity|].
  destruct (reset_timer_disarms (H:=exact_float) [one_second] running) as [Hlog Hticks];
    [vm_compute; lia|].
  split; [exact Hticks|]. rewrite Hlog. reflexivity.
Defined.

(** A duration of a hundredth of a minute is no full second. *)
Lemma start_with_a_hundredth :
  float_of_str "0.01" = Some (1 # 100)%Q
  ∧ seconds_of_minutes (1 # 100)%Q = inr 0%Z
  ∧ let s' := (StudyTrackerApp.toggle_timer morning "0.01" "Math" fresh).1 in
    StudyTrackerApp.log_file s' =
      Some [header; ["2024-03-05"; "10:30:00"; "Math"; "0.01"]]
    ∧ StudyTrackerApp.pending s' = 0.
Proof.
  split; [reflexivity|]. split; [reflexivity|].
  destruct (start_without_seconds_logs_at_once (H:=exact_float) morning "0.01" "Math"
              (1 # 100)%Q 0%Z fresh)
    as (Hlog & Hpending & _);
    [reflexivity|reflexivity|reflexivity|discriminate|reflexivity|reflexivity|].
  split; [rewrite Hlog; reflexivity|exact Hpending].
Defined.


(** The session of 120.5 minutes that starts at 23:30 is counted whole
    in the slot of 23. *)
Lemma read_date_past_midnight :
  let st := read_date (Some "2024-03-05") (∅, ∅) (DictReader past_midnight) in
  (∀ row, row ∈ DictReader past_midnight → is_Some (row !! "date"))
  ∧ st.1 !! "10:00-11:00" = Some 30%Q
  ∧ st.1 !! "23:00-24:00" = Some (241 # 2)%Q
  ∧ st.2 !! "23:00-24:00" = Some 1
  ∧ size st.1 = 2.
Proof.
  assert (Hdate : ∀ row, row ∈ DictReader past_midnight → is_Some (row !! "date")).
  { intros row Hrow.
    repeat (apply elem_of_cons in Hrow as [->|Hrow]);
      [| | |by apply elem_of_nil in Hrow]; eexists; vm_compute; reflexivity. }
  assert (Hslot : ∀ row, row ∈ DictReader past_midnight →
            row !! "date" = Some (Some "2024-03-05") → is_Some (slot_of_row row)).
  { intros row Hrow _.
    repeat (apply elem_of_cons in Hrow as [->|Hrow]);
      [| | |by apply elem_of_nil in Hrow]; eexists; vm_compute; reflexivity. }
  cbv zeta. split; [exact Hdate|].
  rewrite (read_date_counts_whole_sessions (H:=exact_float) (Some "2024-03-05") (∅, ∅)
             (DictReader past_midnight) Hdate Hslot).
  repeat split; vm_compute; reflexivity.
Defined.

(** After the record that stops at its date, the session of 09:00 is
    not counted. *)
Lemma read_date_short_record :
  let later := make_row header ["2024-03-05"; "09:00:00"; "Physics"; "20"] in
  let st := read_date (Some "2024-03-05") (∅, ∅) (DictReader short_record ++ [later]) in
  slot_of_row later = Some ("09:00-10:00", 20%Q)
  ∧ st.1 !! "08:00-09:00" = Some 30%Q
  ∧ st.1 !! "09:00-10:00" = None.
Proof.
  cbv zeta. split; [vm_compute; reflexivity|].
  rewrite (read_date_stops_at_unreadable_row (H:=exact_float) (Some "2024-03-05") (∅, ∅)
             [make_row header ["2024-03-05"; "08:00:00"; "Math"; "30"]]
             [make_row header ["2024-03-05"; "09:00:00"; "Physics"; "20"]]
             (make_row header ["2024-03-05"]) eq_refl eq_refl).
  split; vm_compute; reflexivity.
Defined.

(** The chart of the log with the session past midnight. *)
Lemma hourly_chart_of_past_midnight :
  ∃ hourly_by_day totals,
    plot_hourly_productivity_multiline
      (CSVLogger.get_weekly_data (Some past_midnight)) (Some past_midnight)
    = inr (hourly_by_day, totals)
    ∧ is_Some (hourly_by_day !! Some "2024-03-06")
    ∧ full_days hourly_by_day.
Proof.
  destruct (hourly_chart_is_produced (H:=exact_float)
              (CSVLogger.get_weekly_data (Some past_midnight)) header (tail past_midnight))
    as (hourly_by_day & totals & Hrun & Hkeys & Hfull & _).
  - apply (bool_decide_unpack _). vm_compute. exact I.
  - left.
  - exists hourly_by_day, totals. split; [exact Hrun|]. split; [|exact Hfull].
    apply Hkeys. apply (bool_decide_unpack _). vm_compute. exact I.
Defined.

(** ** The charts at work *)

(** The two days of the log with the session past midnight. *)
Lemma weekly_trend_of_past_midnight :
  let data := get_weekly_data_in_order (Some past_midnight) in
  data = [(Some "2024-03-05", [(Some "Math", (301 # 2)%Q)]);
          (Some "2024-03-06", [(Some "Physics", 45%Q)])]
  ∧ sorted data.*1 = inr data.*1
  ∧ ∃ dates daily_totals,
      plot_weekly_trend data = inr (Some (dates, daily_totals))
      ∧ zip dates daily_totals =
        [(Some "2024-03-05", fadd 0%Q (301 # 2)%Q); (Some "2024-03-06", fadd 0%Q 45%Q)].
Proof.
  cbv zeta. split; [vm_compute; reflexivity|]. split; [vm_compute; reflexivity|].
  destruct (weekly_trend_pairs_dates_with_totals (H:=exact_float)
              (get_weekly_data_in_order (Some past_midnight)))
    as (dates & daily_totals & Hrun & Hzip).
  - apply (bool_decide_unpack _). vm_compute. exact I.
  - vm_compute. reflexivity.
  - vm_compute. discriminate.
  - exists dates, daily_totals. split; [exact Hrun|]. rewrite Hzip. reflexivity.
Defined.

(** Physics was not studied on the first of the two days: its 45
    minutes of the second day are not in the chart, and ten more change
    nothing. *)
Lemma plot_graph_without_physics :
  let data := get_weekly_data_in_order (Some past_midnight) in
  plot_graph data =
    inr (Some ([Some "2024-03-05"; Some "2024-03-06"], [Some "Math"],
               [(Some "Math", [(301 # 2)%Q; 0%Q])], [(301 # 2)%Q; 0%Q]))
  ∧ plot_graph (add_minutes_in_order data (Some "2024-03-06") (Some "Physics") 10%Q)
    = plot_graph data.
Proof.
  cbv zeta. split; [vm_compute; reflexivity|].
  apply (plot_graph_leaves_out_other_subjects (H:=exact_float)
           (get_weekly_data_in_order (Some past_midnight))
           (Some "2024-03-06") (Some "Physics") 10%Q
           [Some "2024-03-05"; Some "2024-03-06"] [Some "Math"]
           [(Some "Math", [(301 # 2)%Q; 0%Q])] [(301 # 2)%Q; 0%Q]).
  - vm_compute. reflexivity.
  - apply (bool_decide_unpack _). vm_compute. exact I.
  - discriminate.
  - apply (bool_decide_unpack _). vm_compute. exact I.
Defined.

(** The pie of the same log: both subjects, over both days. *)
Example subject_distribution_of_past_midnight :
  plot_subject_distribution (get_weekly_data_in_order (Some past_midnight))
  = Some ([(301 # 2)%Q; 45%Q], [Some "Math"; Some "Physics"]).
Proof. vm_compute. reflexivity. Qed.
